(** * Real-time market streamer: store and stream worker

    A shallow embedding of [backend/store.py] (the lock-guarded
    [MarketStore]) and of the parts of [backend/stream_worker.py] that
    compute order-book metrics, reconnect with backoff and decide the
    switch to mock data.

    Modelling conventions.
    - Python [float] values are exact rationals ([Q]): the store only moves
      them around, and the metric computation is read in exact arithmetic
      (rounding, overflow to [inf] and [nan] are outside the model).
    - Python [int] arguments are [Z].
    - Every public method of [MarketStore] runs under [self._lock], so a
      concurrent execution is a sequence of whole method calls; a method is
      a function from the state before the call to the state after it.
    - An exception is a value: a function that can raise returns a sum. *)

From Stdlib Require Import Ascii String.
From Stdlib Require Import ZArith QArith List Bool Lia Lqa.
From Stdlib Require Import Sorted Permutation.
Import ListNotations.

Local Open Scope Z_scope.

(** ** Outcomes of a call that can raise *)

Inductive py_error : Type :=
| ValueError
| IndexError.

Inductive result (A : Type) : Type :=
| Returns (a : A)
| Raises (e : py_error).

Arguments Returns {A} a.
Arguments Raises {A} e.

(** ** [collections.deque(maxlen=n)]

    The items are kept oldest first.  [deque(maxlen=n)] raises
    [ValueError] for a negative [n]; [append] adds on the right and, when
    the length then exceeds [maxlen], drops the leftmost item. *)

Module Deque.

Record t (A : Type) : Type := mk { maxlen : Z; items : list A }.

Arguments mk {A} maxlen items.
Arguments maxlen {A} _.
Arguments items {A} _.

Section Ops.
Context {A : Type}.

Definition new (n : Z) : result (t A) :=
  if n <? 0 then Raises ValueError else Returns (mk n []).

Definition trim (n : Z) (l : list A) : list A :=
  if n <? Z.of_nat (length l) then tl l else l.

Definition append (d : t A) (x : A) : t A :=
  mk (maxlen d) (trim (maxlen d) (items d ++ [x])).

Definition clear (d : t A) : t A := mk (maxlen d) [].

Definition len (d : t A) : Z := Z.of_nat (length (items d)).

(** [d[-1] if d else None] *)
Definition last (d : t A) : option A :=
  match rev (items d) with
  | [] => None
  | x :: _ => Some x
  end.

(** [list(d)] *)
Definition to_list (d : t A) : list A := items d.

(** [list(reversed(d))] *)
Definition reversed (d : t A) : list A := rev (items d).
End Ops.

End Deque.

(** ** [MarketStore] *)

Definition level : Type := (Q * Q)%type.

Inductive trade_side : Type := BUY | SELL.

Module Trade.
Record t : Type := mk {
  price : Q;
  qty : Q;
  time : Q;
  is_buyer_maker : bool;
  side : trade_side
}.
End Trade.

Record MarketStore : Type := mkStore {
  mid_prices : Deque.t Q;
  spreads : Deque.t Q;
  imbalances : Deque.t Q;
  timestamps : Deque.t Q;
  recent_trades : Deque.t Trade.t;
  best_bid : option Q;
  best_ask : option Q;
  bid_volume : option Q;
  ask_volume : option Q;
  top_bids : list level;
  top_asks : list level
}.

(** [MarketStore.__init__]: the five deques are built first, so a negative
    capacity raises out of the constructor. *)
Definition init (max_metrics max_trades : Z) : result MarketStore :=
  match Deque.new max_metrics, Deque.new max_metrics,
        Deque.new max_metrics, Deque.new max_metrics with
  | Returns m, Returns s, Returns i, Returns t =>
      match Deque.new max_trades with
      | Returns r => Returns (mkStore m s i t r None None None None [] [])
      | Raises e => Raises e
      end
  | Raises e, _, _, _ => Raises e
  | _, Raises e, _, _ => Raises e
  | _, _, Raises e, _ => Raises e
  | _, _, _, Raises e => Raises e
  end.

(** The arguments of one [update_book_metrics] call.  [top_bids] and
    [top_asks] are [None] when the caller leaves them out. *)
Module Call.
Record t : Type := mk {
  best_bid : Q;
  best_ask : Q;
  mid_price : Q;
  spread : Q;
  imbalance : Q;
  timestamp : Q;
  bid_volume : Q;
  ask_volume : Q;
  top_bids : option (list level);
  top_asks : option (list level)
}.
End Call.

Definition update_book_metrics (s : MarketStore) (u : Call.t) : MarketStore :=
  mkStore
    (Deque.append (mid_prices s) (Call.mid_price u))
    (Deque.append (spreads s) (Call.spread u))
    (Deque.append (imbalances s) (Call.imbalance u))
    (Deque.append (timestamps s) (Call.timestamp u))
    (recent_trades s)
    (Some (Call.best_bid u))
    (Some (Call.best_ask u))
    (Some (Call.bid_volume u))
    (Some (Call.ask_volume u))
    (match Call.top_bids u with Some l => l | None => top_bids s end)
    (match Call.top_asks u with Some l => l | None => top_asks s end).

Definition add_trade (s : MarketStore) (t : Trade.t) : MarketStore :=
  mkStore (mid_prices s) (spreads s) (imbalances s) (timestamps s)
    (Deque.append (recent_trades s) t)
    (best_bid s) (best_ask s) (bid_volume s) (ask_volume s)
    (top_bids s) (top_asks s).

Definition clear (s : MarketStore) : MarketStore :=
  mkStore
    (Deque.clear (mid_prices s)) (Deque.clear (spreads s))
    (Deque.clear (imbalances s)) (Deque.clear (timestamps s))
    (Deque.clear (recent_trades s))
    None None None None [] [].

(** The dictionary returned by [snapshot()], one field per key. *)
Module Snap.
Record t : Type := mk {
  best_bid : option Q;
  best_ask : option Q;
  bid_volume : option Q;
  ask_volume : option Q;
  current_mid : option Q;
  current_spread : option Q;
  current_imbalance : option Q;
  mid_prices : list Q;
  spreads : list Q;
  imbalances : list Q;
  timestamps : list Q;
  top_bids : list level;
  top_asks : list level;
  recent_trades : list Trade.t;
  data_points : Z;
  last_update : option Q
}.
End Snap.

Definition snapshot (s : MarketStore) : Snap.t :=
  Snap.mk
    (best_bid s) (best_ask s) (bid_volume s) (ask_volume s)
    (Deque.last (mid_prices s))
    (Deque.last (spreads s))
    (Deque.last (imbalances s))
    (Deque.to_list (mid_prices s))
    (Deque.to_list (spreads s))
    (Deque.to_list (imbalances s))
    (Deque.to_list (timestamps s))
    (top_bids s) (top_asks s)
    (Deque.reversed (recent_trades s))
    (Deque.len (mid_prices s))
    (Deque.last (timestamps s)).

(** A call on the store, and a run of calls in the order the lock admits
    them. *)
Inductive op : Type :=
| Update (u : Call.t)
| AddTrade (t : Trade.t)
| Clear.

Definition apply_op (s : MarketStore) (o : op) : MarketStore :=
  match o with
  | Update u => update_book_metrics s u
  | AddTrade t => add_trade s t
  | Clear => clear s
  end.

Definition run (s : MarketStore) (ops : list op) : MarketStore :=
  fold_left apply_op ops s.

(** ** [BinanceStreamClient._process_depth_update] *)

Definition TOP_N : nat := 5.

(** [x < y] on floats, as a test. *)
Definition Qlt_bool (x y : Q) : bool :=
  (Qnum x * QDen y <? Qnum y * QDen x)%Z.

(** One field of a price level on the wire: [float(field)] either gives a
    (finite) number or raises [ValueError]. *)
Inductive raw_field : Type :=
| Num (q : Q)
| NotANumber.

(** One entry of ["bids"] or ["asks"]: a two-element list, or an entry of
    another length, for which the unpacking [for p, q in ...] raises
    [ValueError]. *)
Inductive raw_level : Type :=
| Pair (p q : raw_field)
| WrongLength.

(** The depth payload; a key that is absent is [None], and
    [data.get(key, [])] reads it as the empty list. *)
Record depth_data : Type := mkDepth {
  bids : option (list raw_level);
  asks : option (list raw_level)
}.

Definition get_levels (field : option (list raw_level)) : list raw_level :=
  match field with
  | Some l => l
  | None => []
  end.

Definition float (f : raw_field) : result Q :=
  match f with
  | Num q => Returns q
  | NotANumber => Raises ValueError
  end.

(** [[(float(p), float(q)) for p, q in levels]] *)
Fixpoint parse_levels (levels : list raw_level) : result (list level) :=
  match levels with
  | [] => Returns []
  | WrongLength :: _ => Raises ValueError
  | Pair p q :: rest =>
      match float p with
      | Raises e => Raises e
      | Returns p' =>
          match float q with
          | Raises e => Raises e
          | Returns q' =>
              match parse_levels rest with
              | Raises e => Raises e
              | Returns rest' => Returns ((p', q') :: rest')
              end
          end
      end
  end.

(** [list.sort(key=lambda x: x[0])] is stable: a level moves in front of
    another only when its price comes strictly first in the order.
    [first ky kx] says that price [ky] comes strictly before price [kx]. *)
Fixpoint insert_level (first : Q -> Q -> bool) (x : level) (l : list level)
  : list level :=
  match l with
  | [] => [x]
  | y :: l' =>
      if first (fst y) (fst x) then y :: insert_level first x l'
      else x :: y :: l'
  end.

Definition sort_levels (first : Q -> Q -> bool) (l : list level) : list level :=
  fold_right (insert_level first) [] l.

(** [bids.sort(reverse=True, key=...)]: highest price first. *)
Definition sort_bids : list level -> list level :=
  sort_levels (fun ky kx => Qlt_bool kx ky).

(** [asks.sort(key=...)]: lowest price first. *)
Definition sort_asks : list level -> list level :=
  sort_levels (fun ky kx => Qlt_bool ky kx).

(** [sum(qty for _, qty in levels)]: a left-to-right sum that starts at 0. *)
Definition sum_qty (levels : list level) : Q :=
  fold_left Qplus (map snd levels) 0%Q.

(** [(bid_volume - ask_volume) / total_volume if total_volume > 0 else 0.0] *)
Definition imbalance_of (bid_vol ask_vol : Q) : Q :=
  let total_volume := (bid_vol + ask_vol)%Q in
  if Qlt_bool 0 total_volume then ((bid_vol - ask_vol) / total_volume)%Q
  else 0%Q.

(** What the body of [_process_depth_update] comes to before it touches the
    store: it returns early on an empty side, it raises (and the handler
    logs), or it has the arguments of its one [update_book_metrics] call. *)
Inductive depth_outcome : Type :=
| EmptySide
| Logged (e : py_error)
| Metrics (u : Call.t).

Definition depth_metrics (data : depth_data) (now : Q) : depth_outcome :=
  match parse_levels (get_levels (bids data)) with
  | Raises e => Logged e
  | Returns bids0 =>
      match parse_levels (get_levels (asks data)) with
      | Raises e => Logged e
      | Returns asks0 =>
          match bids0, asks0 with
          | [], _ | _, [] => EmptySide
          | _, _ =>
              let sbids := sort_bids bids0 in
              let sasks := sort_asks asks0 in
              match sbids, sasks with
              | (best_bid, bid_qty) :: _, (best_ask, ask_qty) :: _ =>
                  let mid_price := ((best_bid + best_ask) / 2)%Q in
                  let spread := (best_ask - best_bid)%Q in
                  let top_bids := firstn TOP_N sbids in
                  let top_asks := firstn TOP_N sasks in
                  let bid_volume := sum_qty top_bids in
                  let ask_volume := sum_qty top_asks in
                  Metrics (Call.mk best_bid best_ask mid_price spread
                             (imbalance_of bid_volume ask_volume) now
                             bid_qty ask_qty (Some top_bids) (Some top_asks))
              (* [bids[0]] on an empty list would raise IndexError, which
                 the handler catches and logs *)
              | _, _ => Logged IndexError
              end
          end
      end
  end.

Definition _process_depth_update (s : MarketStore) (data : depth_data) (now : Q)
  : MarketStore :=
  match depth_metrics data now with
  | Metrics u => update_book_metrics s u
  | EmptySide | Logged _ => s
  end.

(** ** [BinanceStreamClient.connect_and_stream] and [start_worker] *)

Definition RECONNECT_BASE_DELAY : Q := 1.
Definition RECONNECT_MAX_DELAY : Q := 30.
Definition RECONNECT_MULTIPLIER : Q := 2.

(** Python's [min(a, b)]: [b] when [b < a], else [a]. *)
Definition py_min (a b : Q) : Q := if Qlt_bool b a then b else a.

(** What the handlers look at in a raised exception: whether it is an
    instance of [Exception] (an [asyncio.CancelledError] or a
    [KeyboardInterrupt] is not), and whether ["451" in str(e)]. *)
Record exn : Type := mkExn {
  is_Exception : bool;
  mentions_451 : bool
}.

(** The fields of the client that the connection loop reads and writes,
    with the arguments of its [asyncio.sleep] calls so far, oldest first. *)
Record client : Type := mkClient {
  running : bool;
  _reconnect_delay : Q;
  slept : list Q
}.

Definition new_client : client := mkClient false RECONNECT_BASE_DELAY [].

(** How a session that was established ends. *)
Inductive session_end : Type :=
| Dropped
    (* [break] out of the receive loop: an error while receiving or
       processing, or a dead ping; the connection closes normally *)
| StopCalled
    (* [stop()] was called: the receive loop and then the outer loop see
       [self.running] false *)
| Escaped (e : exn) (stop_called : bool).
    (* an exception leaves the [async with] block; [stop_called] says
       whether [stop()] ran before the handler reads [self.running] *)

(** What one pass through the body of the outer loop meets. *)
Inductive attempt : Type :=
| Refused (e : exn) (stop_called : bool)
    (* [websockets.connect] raises [e] *)
| Established (ending : session_end).

Inductive status : Type :=
| Looping
| Finished
| Propagates (e : exn).

(** The [except Exception as e] clause of the outer loop; an exception that
    is not an [Exception] passes through it. *)
Definition on_exception (c : client) (e : exn) (stop_called : bool)
  : client * status :=
  let still_running := running c && negb stop_called in
  if is_Exception e then
    if still_running then
      (mkClient true
         (py_min (_reconnect_delay c * RECONNECT_MULTIPLIER) RECONNECT_MAX_DELAY)
         (slept c ++ [_reconnect_delay c]),
       Looping)
    else (mkClient false (_reconnect_delay c) (slept c), Finished)
  else (mkClient still_running (_reconnect_delay c) (slept c), Propagates e).

Definition loop_body (c : client) (a : attempt) : client * status :=
  match a with
  | Refused e stop_called => on_exception c e stop_called
  | Established ending =>
      let c1 := mkClient (running c) RECONNECT_BASE_DELAY (slept c) in
      match ending with
      | Dropped => (c1, Looping)
      | StopCalled => (mkClient false RECONNECT_BASE_DELAY (slept c), Finished)
      | Escaped e stop_called => on_exception c1 e stop_called
      end
  end.

(** [while self.running: ...] over the attempts the environment offers; a
    run that has used them all is still in the loop. *)
Fixpoint stream_loop (c : client) (attempts : list attempt) : client * status :=
  match attempts with
  | [] => (c, if running c then Looping else Finished)
  | a :: rest =>
      if running c then
        match loop_body c a with
        | (c', Looping) => stream_loop c' rest
        | stopped => stopped
        end
      else (c, Finished)
  end.

Definition connect_and_stream (c : client) (attempts : list attempt)
  : client * status :=
  stream_loop (mkClient true (_reconnect_delay c) (slept c)) attempts.

(** The state of [run_async_loop]: the client, the counter and whether
    [start_mock_worker] has been called. *)
Record worker : Type := mkWorker {
  the_client : client;
  http_451_count : Z;
  mock_started : bool;
  outcome : status
}.

(** [try_connect], awaited once by [run_async_loop]. *)
Definition try_connect (c : client) (count : Z) (attempts : list attempt)
  : worker :=
  match connect_and_stream c attempts with
  | (c', Propagates e) =>
      if is_Exception e then
        if mentions_451 e then
          let count' := count + 1 in
          if 3 <=? count' then mkWorker c' count' true Finished
          else mkWorker c' count' false (Propagates e)
        else mkWorker c' count false (Propagates e)
      else mkWorker c' count false (Propagates e)
  | (c', st) => mkWorker c' count false st
  end.

Definition run_async_loop (attempts : list attempt) : worker :=
  try_connect new_client 0 attempts.

(** [start_worker]: with [use_mock] the mock generator is started and no
    client is created. *)
Definition start_worker (use_mock : bool) (attempts : list attempt) : worker :=
  if use_mock then mkWorker new_client 0 true Finished
  else run_async_loop attempts.

(** ** Reference definitions for the properties

    What a run of calls should leave in the store, read off the calls
    alone: the update calls (and the trades) since the last [clear], and
    the last [n] items of a list. *)

Definition calls_since_clear (ops : list op) : list Call.t :=
  fold_left
    (fun h o =>
       match o with
       | Update u => h ++ [u]
       | AddTrade _ => h
       | Clear => []
       end) ops [].

Definition trades_since_clear (ops : list op) : list Trade.t :=
  fold_left
    (fun h o =>
       match o with
       | Update _ => h
       | AddTrade t => h ++ [t]
       | Clear => []
       end) ops [].

Definition last_n {A : Type} (n : Z) (l : list A) : list A :=
  skipn (length l - Z.to_nat n) l.

(** The last item of a list, if any. *)
Definition final {A : Type} (l : list A) : option A :=
  nth_error l (length l - 1).

(** A call whose top levels are given and, when there are any, start at the
    best price passed alongside them: the shape of every call made by
    [_process_depth_update]. *)
Definition heads_at (best : Q) (top : option (list level)) : Prop :=
  match top with
  | Some [] => True
  | Some ((p, _) :: _) => p = best
  | None => False
  end.

Definition ingestion_call (u : Call.t) : Prop :=
  heads_at (Call.best_bid u) (Call.top_bids u) /\
  heads_at (Call.best_ask u) (Call.top_asks u).

Definition ingestion_op (o : op) : Prop :=
  match o with
  | Update u => ingestion_call u
  | AddTrade _ | Clear => True
  end.


(** A run of connection attempts that are all refused with an [Exception],
    [stop()] never being called; [flags] says of each whether its text
    mentions 451. *)
Definition refusals (flags : list bool) : list attempt :=
  map (fun m => Refused (mkExn true m) false) flags.

(** The [n]-th delay of a run of failures: 1, 2, 4, 8, 16, 30, 30, ... *)
Definition backoff_delay (n : nat) : Q :=
  if (n <? 5)%nat then inject_Z (2 ^ Z.of_nat n) else 30.

(** The store a successful construction returns. *)
Definition empty_store (max_metrics max_trades : Z) : MarketStore :=
  mkStore (Deque.mk max_metrics []) (Deque.mk max_metrics [])
    (Deque.mk max_metrics []) (Deque.mk max_metrics [])
    (Deque.mk max_trades []) None None None None [] [].

(** The series hold the windows of the calls since the last [clear]. *)
Definition windows (max_metrics max_trades : Z) (ops : list op)
  (s : MarketStore) : Prop :=
  let kept := last_n max_metrics (calls_since_clear ops) in
  mid_prices s = Deque.mk max_metrics (map Call.mid_price kept) /\
  spreads s = Deque.mk max_metrics (map Call.spread kept) /\
  imbalances s = Deque.mk max_metrics (map Call.imbalance kept) /\
  timestamps s = Deque.mk max_metrics (map Call.timestamp kept) /\
  recent_trades s =
    Deque.mk max_trades (last_n max_trades (trades_since_clear ops)).

(** The current book is that of the last update call since the last
    [clear], when every call passes its top levels. *)
Definition book_of_last_call (ops : list op) (s : MarketStore) : Prop :=
  match final (calls_since_clear ops) with
  | None =>
      best_bid s = None /\ best_ask s = None /\
      top_bids s = [] /\ top_asks s = []
  | Some u =>
      best_bid s = Some (Call.best_bid u) /\
      best_ask s = Some (Call.best_ask u) /\
      Call.top_bids u = Some (top_bids s) /\
      Call.top_asks u = Some (top_asks s)
  end.

(** ** Sample inputs *)

Definition sample_call (k : Z) : Call.t :=
  Call.mk (inject_Z k) (inject_Z (k + 1)) (inject_Z k + (1 # 2))%Q 1%Q 0%Q
    (inject_Z (1000 + k)) 1%Q 1%Q
    (Some [(inject_Z k, 1%Q)]) (Some [(inject_Z (k + 1), 1%Q)]).

Definition sample_trade (k : Z) : Trade.t :=
  Trade.mk (inject_Z k) (1 # 2)%Q (inject_Z (1000 + k)) false BUY.

(** The depth update of the stream worker's own imbalance test: bid
    quantities 10, 8, 6, 4, 2 and ask quantities 2, 2, 2, 2, 2, the bids
    given lowest price first. *)
Definition sample_depth : depth_data :=
  mkDepth
    (Some [Pair (Num 49996) (Num 2); Pair (Num 49997) (Num 4);
           Pair (Num 49998) (Num 6); Pair (Num 49999) (Num 8);
           Pair (Num 50000) (Num 10)])
    (Some [Pair (Num 50001) (Num 2); Pair (Num 50002) (Num 2);
           Pair (Num 50003) (Num 2); Pair (Num 50004) (Num 2);
           Pair (Num 50005) (Num 2)]).


(** ** [BinanceStreamClient._process_trade_update] and [_process_message] *)

(** The object under ["data"] in a message, by the keys the two handlers
    read: ["bids"] and ["asks"] for a depth update, ["p"], ["q"], ["T"] and
    ["m"] for a trade.  A key that is absent is [None]; ["T"] is an integer
    number of milliseconds and ["m"] a boolean. *)
Record stream_data : Type := mkStreamData {
  depth_keys : depth_data;
  key_p : option raw_field;
  key_q : option raw_field;
  key_T : option Z;
  key_m : option bool
}.

(** What the handler of a trade catches and logs: a key that is missing
    ([KeyError]) or a field that is not a number ([ValueError]). *)
Inductive trade_error : Type :=
| TradeKeyError
| TradeValueError.

(** The dictionary built by [_process_trade_update], its entries
    evaluated in the order they are written. *)
Definition trade_of (data : stream_data) : trade_error + Trade.t :=
  match key_p data with
  | None => inl TradeKeyError
  | Some NotANumber => inl TradeValueError
  | Some (Num price) =>
      match key_q data with
      | None => inl TradeKeyError
      | Some NotANumber => inl TradeValueError
      | Some (Num qty) =>
          match key_T data with
          | None => inl TradeKeyError
          | Some T =>
              match key_m data with
              | None => inl TradeKeyError
              | Some m =>
                  inr (Trade.mk price qty (inject_Z T / 1000)%Q m
                         (if m then SELL else BUY))
              end
          end
      end
  end.

Definition _process_trade_update (s : MarketStore) (data : stream_data)
  : MarketStore :=
  match trade_of data with
  | inr trade => add_trade s trade
  | inl _ => s
  end.

(** [needle in hay] on strings. *)
Fixpoint contains (needle hay : string) : bool :=
  match hay with
  | EmptyString => prefix needle hay
  | String _ rest => prefix needle hay || contains needle rest
  end.

(** A message off the socket: text that [json.loads] rejects, or an
    object with its ["stream"] and ["data"] entries, [None] when absent. *)
Inductive message : Type :=
| NotJson
| Envelope (stream : option string) (data : option stream_data).

Definition _process_message (s : MarketStore) (msg : message) (now : Q)
  : MarketStore :=
  match msg with
  | NotJson => s
  | Envelope None _ | Envelope _ None => s
  | Envelope (Some stream_name) (Some stream_data) =>
      if contains "depth" stream_name then
        _process_depth_update s (depth_keys stream_data) now
      else if contains "trade" stream_name then
        _process_trade_update s stream_data
      else s
  end.

(** The messages of a session, each with the clock reading at the time it
    is processed, handled in the order they arrive. *)
Definition process_messages (s : MarketStore) (msgs : list (message * Q))
  : MarketStore :=
  fold_left (fun st mn => _process_message st (fst mn) (snd mn)) msgs s.

(** A store call that a message can cause. *)
Definition from_message (o : op) : Prop :=
  match o with
  | Update u => exists data now, depth_metrics data now = Metrics u
  | AddTrade t => exists data, trade_of data = inr t
  | Clear => False
  end.

(** ** [BinanceStreamClient.__init__] and [_build_stream_url] *)

(** [str.lower] on a symbol of ASCII characters. *)
Definition lower_char (c : ascii) : ascii :=
  let n := nat_of_ascii c in
  if ((65 <=? n) && (n <=? 90))%nat then ascii_of_nat (n + 32) else c.

Fixpoint lower (s : string) : string :=
  match s with
  | EmptyString => EmptyString
  | String c rest => String (lower_char c) (lower rest)
  end.

Fixpoint ascii_only (s : string) : bool :=
  match s with
  | EmptyString => true
  | String c rest => (nat_of_ascii c <? 128)%nat && ascii_only rest
  end.

Definition depth_stream (symbol : string) : string :=
  String.append symbol "@depth@100ms".

Definition trade_stream (symbol : string) : string :=
  String.append symbol "@trade".

Definition _build_stream_url (symbol : string) : string :=
  let base_url := "wss://stream.binance.com:9443/stream"%string in
  let streams :=
    String.append (depth_stream symbol)
      (String.append "/" (trade_stream symbol)) in
  String.append base_url (String.append "?streams=" streams).

(** The [ws_url] of a client made for [symbol]: [__init__] lowers the
    symbol before it builds the URL. *)
Definition ws_url (symbol : string) : string :=
  _build_stream_url (lower symbol).

(** ** The imbalance caption of the dashboard *)




(** The trade of the stream worker's own test:
    [{"p": "50000.50", "q": "0.5", "T": 1699999999000, "m": False}]. *)
Definition sample_trade_data : stream_data :=
  mkStreamData (mkDepth None None)
    (Some (Num (100001 # 2))) (Some (Num (1 # 2)))
    (Some 1699999999000) (Some false).

(** ** Further reference definitions *)

(** A run of calls without the trades, and one without the book updates. *)
Definition without_trades (ops : list op) : list op :=
  filter (fun o => match o with AddTrade _ => false | _ => true end) ops.

Definition without_updates (ops : list op) : list op :=
  filter (fun o => match o with Update _ => false | _ => true end) ops.

(** The book of one store with the trade log of another. *)
Definition with_trades (book : MarketStore) (log : Deque.t Trade.t)
  : MarketStore :=
  mkStore (mid_prices book) (spreads book) (imbalances book) (timestamps book)
    log
    (best_bid book) (best_ask book) (bid_volume book) (ask_volume book)
    (top_bids book) (top_asks book).

(** A level of two fields that both parse. *)
Definition well_formed (lv : raw_level) : Prop :=
  match lv with
  | Pair (Num _) (Num _) => True
  | _ => False
  end.


(** An attempt after which the loop goes on: whatever is raised is an
    [Exception] and [stop()] is not called. *)
Definition recoverable (a : attempt) : bool :=
  match a with
  | Refused e stop_called => is_Exception e && negb stop_called
  | Established Dropped => true
  | Established StopCalled => false
  | Established (Escaped e stop_called) => is_Exception e && negb stop_called
  end.

(** An attempt that ends in the [except] clause of the outer loop. *)
Definition fails (a : attempt) : bool :=
  match a with
  | Refused _ _ => true
  | Established (Escaped _ _) => true
  | Established _ => false
  end.

(** An attempt during which [stop()] is called. *)
Definition stops (a : attempt) : bool :=
  match a with
  | Refused _ stop_called => stop_called
  | Established StopCalled => true
  | Established Dropped => false
  | Established (Escaped _ stop_called) => stop_called
  end.

(** * Properties *)

(** ** Lists and deques *)

Section ListFacts.
Context {A : Type}.

Lemma tl_skipn (k : nat) (l : list A) : tl (skipn k l) = skipn (S k) l.
Proof.
  revert l; induction k as [|k IH]; intros [|a l]; try reflexivity.
  exact (IH l).
Qed.

Lemma last_n_length (n : Z) (l : list A) :
  0 <= n -> Z.of_nat (length (last_n n l)) = Z.min n (Z.of_nat (length l)).
Proof. intros Hn. unfold last_n. rewrite length_skipn. lia. Qed.

Lemma last_n_short (n : Z) (l : list A) :
  Z.of_nat (length l) <= n -> last_n n l = l.
Proof.
  intros H. unfold last_n.
  replace (length l - Z.to_nat n)%nat with 0%nat by lia. reflexivity.
Qed.

(** Appending to a bounded window and trimming it is the window of the
    longer history. *)
Lemma trim_last_n (n : Z) (h : list A) (x : A) :
  0 <= n -> Deque.trim n (last_n n h ++ [x]) = last_n n (h ++ [x]).
Proof.
  intros Hn. unfold Deque.trim.
  rewrite length_app, Nat2Z.inj_add, last_n_length by assumption.
  simpl (Z.of_nat (length [x])).
  destruct (Z.ltb_spec n (Z.min n (Z.of_nat (length h)) + 1)) as [Hfull|Hroom].
  - (* the window was full: both sides drop one more item of [h] *)
    unfold last_n. rewrite length_app. simpl length.
    replace (length h + 1 - Z.to_nat n)%nat
      with (S (length h - Z.to_nat n)) by lia.
    rewrite <- tl_skipn, skipn_app.
    replace (length h - Z.to_nat n - length h)%nat with 0%nat by lia.
    reflexivity.
  - rewrite !last_n_short; try reflexivity; rewrite ?length_app; simpl; lia.
Qed.

Lemma final_nil : final (@nil A) = None.
Proof. reflexivity. Qed.

Lemma final_snoc (l : list A) (x : A) : final (l ++ [x]) = Some x.
Proof.
  unfold final. rewrite length_app. simpl length.
  replace (length l + 1 - 1)%nat with (length l) by lia.
  rewrite nth_error_app2 by lia. rewrite Nat.sub_diag. reflexivity.
Qed.

Lemma deque_last_final (d : Deque.t A) : Deque.last d = final (Deque.items d).
Proof.
  unfold Deque.last.
  destruct (Deque.items d) as [|a l] using rev_ind.
  - reflexivity.
  - rewrite rev_app_distr, final_snoc. reflexivity.
Qed.

(** At capacity, [append] drops the oldest item and nothing else. *)
Lemma append_at_capacity (d : Deque.t A) (x : A) :
  0 < Deque.maxlen d -> Deque.len d = Deque.maxlen d ->
  Deque.items (Deque.append d x) = tl (Deque.items d) ++ [x].
Proof.
  unfold Deque.len, Deque.append, Deque.trim. simpl. intros Hpos Hlen.
  rewrite length_app. simpl length.
  destruct (Z.ltb_spec (Deque.maxlen d) (Z.of_nat (length (Deque.items d) + 1)));
    [|lia].
  destruct (Deque.items d); [simpl in Hlen; lia | reflexivity].
Qed.
End ListFacts.

(** ** The store after a run of calls *)

Lemma init_returns (max_metrics max_trades : Z) (s0 : MarketStore) :
  init max_metrics max_trades = Returns s0 ->
  0 <= max_metrics /\ 0 <= max_trades /\
  s0 = empty_store max_metrics max_trades.
Proof.
  unfold init, Deque.new.
  destruct (Z.ltb_spec max_metrics 0); [discriminate|].
  destruct (Z.ltb_spec max_trades 0); [discriminate|].
  intros E; injection E as <-. repeat split; assumption.
Qed.



Lemma run_snoc (s : MarketStore) (ops : list op) (o : op) :
  run s (ops ++ [o]) = apply_op (run s ops) o.
Proof. unfold run. rewrite fold_left_app. reflexivity. Qed.

Lemma calls_since_clear_snoc (ops : list op) (o : op) :
  calls_since_clear (ops ++ [o]) =
  match o with
  | Update u => calls_since_clear ops ++ [u]
  | AddTrade _ => calls_since_clear ops
  | Clear => []
  end.
Proof. unfold calls_since_clear. rewrite fold_left_app. reflexivity. Qed.

Lemma trades_since_clear_snoc (ops : list op) (o : op) :
  trades_since_clear (ops ++ [o]) =
  match o with
  | Update _ => trades_since_clear ops
  | AddTrade t => trades_since_clear ops ++ [t]
  | Clear => []
  end.
Proof. unfold trades_since_clear. rewrite fold_left_app. reflexivity. Qed.

Lemma calls_since_clear_updates (calls : list Call.t) :
  calls_since_clear (map Update calls) = calls.
Proof.
  induction calls as [|u calls IH] using rev_ind; [reflexivity|].
  rewrite map_app. simpl map. rewrite calls_since_clear_snoc, IH. reflexivity.
Qed.

Lemma calls_since_clear_In (ops : list op) (u : Call.t) :
  In u (calls_since_clear ops) -> In (Update u) ops.
Proof.
  induction ops as [|o ops IH] using rev_ind; [intros []|].
  rewrite calls_since_clear_snoc, in_app_iff. destruct o; simpl.
  - rewrite in_app_iff. simpl. intros [H|[->|[]]]; auto.
  - auto.
  - intros [].
Qed.

Section Window.
Context {A B : Type} (f : A -> B).

Lemma map_last_n (n : Z) (l : list A) :
  map f (last_n n l) = last_n n (map f l).
Proof. unfold last_n. rewrite length_map. symmetry. apply skipn_map. Qed.

Lemma append_window (n : Z) (h : list A) (x : A) :
  0 <= n ->
  Deque.append (Deque.mk n (map f (last_n n h))) (f x) =
  Deque.mk n (map f (last_n n (h ++ [x]))).
Proof.
  intros Hn. unfold Deque.append. simpl. f_equal.
  rewrite !map_last_n, map_app. apply trim_last_n. assumption.
Qed.
End Window.

Lemma run_windows (max_metrics max_trades : Z) (s0 : MarketStore)
  (ops : list op) :
  init max_metrics max_trades = Returns s0 ->
  windows max_metrics max_trades ops (run s0 ops).
Proof.
  intros Hinit. apply init_returns in Hinit as (Hm & Ht & ->).
  induction ops as [|o ops IH] using rev_ind.
  - repeat split.
  - rewrite run_snoc. unfold windows in *.
    rewrite calls_since_clear_snoc, trades_since_clear_snoc.
    destruct IH as (Hmid & Hsp & Him & Hts & Htr).
    destruct o as [u|t|]; simpl.
    + rewrite Hmid, Hsp, Him, Hts, !append_window by assumption.
      repeat split. assumption.
    + rewrite Htr. repeat split; try assumption.
      rewrite <- (map_id (last_n max_trades (trades_since_clear ops))).
      rewrite (append_window (fun t => t)) by assumption.
      rewrite map_id. reflexivity.
    + rewrite Hmid, Hsp, Him, Hts, Htr. repeat split.
Qed.

Lemma run_book_of_last_call (max_metrics max_trades : Z) (s0 : MarketStore)
  (ops : list op) :
  init max_metrics max_trades = Returns s0 ->
  Forall ingestion_op ops ->
  book_of_last_call ops (run s0 ops).
Proof.
  intros Hinit. apply init_returns in Hinit as (_ & _ & ->).
  induction ops as [|o ops IH] using rev_ind; intros Hops.
  - repeat split.
  - apply Forall_app in Hops as [Hops Ho]. specialize (IH Hops).
    inversion Ho as [|? ? Hcall _]; subst.
    rewrite run_snoc. unfold book_of_last_call in *.
    rewrite calls_since_clear_snoc.
    destruct o as [u|t|]; simpl.
    + rewrite final_snoc.
      destruct Hcall as [Hb Ha]. unfold heads_at in Hb, Ha.
      destruct (Call.top_bids u), (Call.top_asks u); try contradiction.
      repeat split.
    + exact IH.
    + repeat split.
Qed.

(** ** The repository's own tests, replayed *)

(** [test_max_length_enforcement]: five updates into a store of capacity
    three keep the mid prices of the last three. *)
Example max_length_enforcement :
  map Call.mid_price
    (last_n 3 (map sample_call [0; 1; 2; 3; 4])) =
  Deque.to_list
    (mid_prices
       (run (empty_store 3 2) (map Update (map sample_call [0; 1; 2; 3; 4]))))
  /\ Deque.len
       (recent_trades
          (run (empty_store 3 2)
             (map AddTrade (map sample_trade [0; 1; 2; 3])))) = 2.
Proof. split; reflexivity. Qed.

(** [test_empty_book_handling]: an empty book adds no data point. *)
Example empty_book_handling :
  Snap.data_points
    (snapshot
       (_process_depth_update (empty_store 1000 100)
          (mkDepth (Some []) (Some [])) 0)) = 0.
Proof. reflexivity. Qed.

(** [test_clear]: after [clear] the store is as new. *)
Example clear_resets :
  clear (run (empty_store 1000 100)
           [Update (sample_call 1); AddTrade (sample_trade 1)]) =
  empty_store 1000 100.
Proof. reflexivity. Qed.

(** ** The claims about [MarketStore] *)

(** C1. In every state reached from a fresh store by update, add-trade and
    clear calls whose top levels start at the best prices passed with them,
    the snapshot's [best_bid] is the price of [top_bids[0]] and its
    [best_ask] the price of [top_asks[0]] whenever those lists are not
    empty; all four come from the last update call since the last clear. *)
Theorem snapshot_best_matches_top
  (max_metrics max_trades : Z) (s0 : MarketStore) (ops : list op) :
  init max_metrics max_trades = Returns s0 ->
  Forall ingestion_op ops ->
  let snap := snapshot (run s0 ops) in
  (forall p q rest,
      Snap.top_bids snap = (p, q) :: rest -> Snap.best_bid snap = Some p) /\
  (forall p q rest,
      Snap.top_asks snap = (p, q) :: rest -> Snap.best_ask snap = Some p) /\
  match final (calls_since_clear ops) with
  | Some u =>
      In (Update u) ops /\
      Snap.best_bid snap = Some (Call.best_bid u) /\
      Snap.best_ask snap = Some (Call.best_ask u) /\
      Call.top_bids u = Some (Snap.top_bids snap) /\
      Call.top_asks u = Some (Snap.top_asks snap)
  | None => Snap.top_bids snap = [] /\ Snap.top_asks snap = []
  end.
Proof.
  intros Hinit Hops.
  pose proof (run_book_of_last_call _ _ _ _ Hinit Hops) as Hbook.
  unfold book_of_last_call in Hbook. simpl.
  destruct (final (calls_since_clear ops)) as [u|] eqn:Hlast.
  - destruct Hbook as (Hbb & Hba & Htb & Hta).
    assert (Hin : In (Update u) ops).
    { apply calls_since_clear_In. unfold final in Hlast.
      eapply nth_error_In; eassumption. }
    assert (Hu : ingestion_call u).
    { rewrite Forall_forall in Hops. exact (Hops _ Hin). }
    destruct Hu as [Hb Ha]. rewrite Htb in Hb. rewrite Hta in Ha.
    unfold heads_at in Hb, Ha. repeat split; try assumption.
    + intros p q rest E. rewrite E in Hb. rewrite Hbb, Hb. reflexivity.
    + intros p q rest E. rewrite E in Ha. rewrite Hba, Ha. reflexivity.
  - destruct Hbook as (_ & _ & Htb & Hta). rewrite Htb, Hta.
    repeat split; try assumption; intros; discriminate.
Qed.

Lemma snapshot_best_matches_top_witness :
  init 3 2 = Returns (empty_store 3 2) /\
  Forall ingestion_op
    [Update (sample_call 7); AddTrade (sample_trade 1); Update (sample_call 9)] /\
  Snap.best_bid
    (snapshot
       (run (empty_store 3 2)
          [Update (sample_call 7); AddTrade (sample_trade 1);
           Update (sample_call 9)])) = Some (inject_Z 9).
Proof.
  assert (Hinit : init 3 2 = Returns (empty_store 3 2)) by reflexivity.
  assert (Hops : Forall ingestion_op
            [Update (sample_call 7); AddTrade (sample_trade 1);
             Update (sample_call 9)]).
  { repeat constructor. }
  split; [exact Hinit|]. split; [exact Hops|].
  destruct (snapshot_best_matches_top 3 2 _ _ Hinit Hops) as (Hb & _ & _).
  apply (Hb (inject_Z 9) 1%Q []). reflexivity.
Defined.

(** C2. With capacity [c > 0] and more than [c] update calls on a fresh
    store, each of the four series has length [c] and holds the values of
    the last [c] calls, oldest first; one more call drops exactly the
    oldest item of each series and adds its own value at the end. *)
Theorem capacity_window
  (c max_trades : Z) (s0 : MarketStore) (calls : list Call.t) :
  0 < c ->
  init c max_trades = Returns s0 ->
  c < Z.of_nat (length calls) ->
  let s := run s0 (map Update calls) in
  let kept := last_n c calls in
  (Deque.len (mid_prices s) = c /\ Deque.len (spreads s) = c /\
   Deque.len (imbalances s) = c /\ Deque.len (timestamps s) = c) /\
  (Deque.to_list (mid_prices s) = map Call.mid_price kept /\
   Deque.to_list (spreads s) = map Call.spread kept /\
   Deque.to_list (imbalances s) = map Call.imbalance kept /\
   Deque.to_list (timestamps s) = map Call.timestamp kept) /\
  (forall u,
      let s' := update_book_metrics s u in
      Deque.to_list (mid_prices s') =
        tl (Deque.to_list (mid_prices s)) ++ [Call.mid_price u] /\
      Deque.to_list (spreads s') =
        tl (Deque.to_list (spreads s)) ++ [Call.spread u] /\
      Deque.to_list (imbalances s') =
        tl (Deque.to_list (imbalances s)) ++ [Call.imbalance u] /\
      Deque.to_list (timestamps s') =
        tl (Deque.to_list (timestamps s)) ++ [Call.timestamp u]).
Proof.
  intros Hc Hinit Hlen s kept.
  pose proof (run_windows _ _ _ (map Update calls) Hinit) as Hw.
  unfold windows in Hw. rewrite calls_since_clear_updates in Hw.
  fold s kept in Hw. destruct Hw as (Hmid & Hsp & Him & Hts & _).
  assert (Hkept : Z.of_nat (length kept) = c).
  { unfold kept. rewrite last_n_length; lia. }
  assert (L : (Deque.len (mid_prices s) = c /\ Deque.len (spreads s) = c /\
               Deque.len (imbalances s) = c /\ Deque.len (timestamps s) = c)).
  { unfold Deque.len. rewrite Hmid, Hsp, Him, Hts. simpl.
    rewrite !length_map. auto. }
  split; [exact L|]. split.
  - unfold Deque.to_list. rewrite Hmid, Hsp, Him, Hts. auto.
  - intros u s'. unfold s', update_book_metrics, Deque.to_list.
    cbn [mid_prices spreads imbalances timestamps].
    destruct L as (L1 & L2 & L3 & L4).
    assert (M : Deque.maxlen (mid_prices s) = c /\
                Deque.maxlen (spreads s) = c /\
                Deque.maxlen (imbalances s) = c /\
                Deque.maxlen (timestamps s) = c).
    { rewrite Hmid, Hsp, Him, Hts. auto. }
    destruct M as (M1 & M2 & M3 & M4).
    rewrite !append_at_capacity by lia. auto.
Qed.

Lemma capacity_window_witness :
  0 < 2 /\ init 2 1 = Returns (empty_store 2 1) /\
  2 < Z.of_nat (length [sample_call 1; sample_call 2; sample_call 3]) /\
  Deque.to_list
    (timestamps
       (run (empty_store 2 1)
          (map Update [sample_call 1; sample_call 2; sample_call 3]))) =
  [inject_Z 1002; inject_Z 1003].
Proof.
  assert (Hc : 0 < 2) by lia.
  assert (Hinit : init 2 1 = Returns (empty_store 2 1)) by reflexivity.
  assert (Hlen : 2 < Z.of_nat
            (length [sample_call 1; sample_call 2; sample_call 3]))
    by (simpl; lia).
  repeat (split; [assumption|]).
  destruct (capacity_window 2 1 _ _ Hc Hinit Hlen) as (_ & (_ & _ & _ & H) & _).
  exact H.
Defined.

(** C3. After any run of update, add-trade and clear calls on a fresh
    store the four series have the same length, and at every index the
    four items are the four values passed by one and the same
    [update_book_metrics] call of the run: the call at that index among
    the retained ones.  Past the retained calls all four series end. *)
Theorem series_aligned
  (max_metrics max_trades : Z) (s0 : MarketStore) (ops : list op) :
  init max_metrics max_trades = Returns s0 ->
  let s := run s0 ops in
  let kept := last_n max_metrics (calls_since_clear ops) in
  (Deque.len (spreads s) = Deque.len (mid_prices s) /\
   Deque.len (imbalances s) = Deque.len (mid_prices s) /\
   Deque.len (timestamps s) = Deque.len (mid_prices s)) /\
  (forall i : nat,
      match nth_error kept i with
      | Some u =>
          In (Update u) ops /\
          nth_error (Deque.to_list (mid_prices s)) i = Some (Call.mid_price u) /\
          nth_error (Deque.to_list (spreads s)) i = Some (Call.spread u) /\
          nth_error (Deque.to_list (imbalances s)) i = Some (Call.imbalance u) /\
          nth_error (Deque.to_list (timestamps s)) i = Some (Call.timestamp u)
      | None =>
          nth_error (Deque.to_list (mid_prices s)) i = None /\
          nth_error (Deque.to_list (spreads s)) i = None /\
          nth_error (Deque.to_list (imbalances s)) i = None /\
          nth_error (Deque.to_list (timestamps s)) i = None
      end).
Proof.
  intros Hinit s kept.
  pose proof (run_windows _ _ _ ops Hinit) as Hw. unfold windows in Hw.
  fold s kept in Hw. destruct Hw as (Hmid & Hsp & Him & Hts & _).
  unfold Deque.len, Deque.to_list. rewrite Hmid, Hsp, Him, Hts.
  cbn [Deque.items]. split.
  - rewrite !length_map. auto.
  - intros i. rewrite !nth_error_map.
    destruct (nth_error kept i) as [u|] eqn:Hu; [|repeat split].
    repeat split.
    apply calls_since_clear_In. unfold kept, last_n in Hu.
    rewrite nth_error_skipn in Hu. eapply nth_error_In; eassumption.
Qed.

Lemma series_aligned_witness :
  init 2 1 = Returns (empty_store 2 1) /\
  Deque.len
    (timestamps
       (run (empty_store 2 1)
          [Update (sample_call 1); Clear; Update (sample_call 2);
           AddTrade (sample_trade 5); Update (sample_call 3);
           Update (sample_call 4)])) =
  Deque.len
    (mid_prices
       (run (empty_store 2 1)
          [Update (sample_call 1); Clear; Update (sample_call 2);
           AddTrade (sample_trade 5); Update (sample_call 3);
           Update (sample_call 4)])).
Proof.
  assert (Hinit : init 2 1 = Returns (empty_store 2 1)) by reflexivity.
  split; [exact Hinit|].
  destruct (series_aligned 2 1 _
              [Update (sample_call 1); Clear; Update (sample_call 2);
               AddTrade (sample_trade 5); Update (sample_call 3);
               Update (sample_call 4)] Hinit) as ((_ & _ & H) & _).
  exact H.
Defined.

(** C8. For the state after any run of calls on a fresh store, the
    snapshot has [data_points] equal to the length of [mid_prices], the
    other three series of that same length, [last_update] the last item of
    [timestamps] (absent when there is none), [recent_trades] the stored
    trades in reverse order of insertion, and the four series in order of
    insertion, oldest first. *)
Theorem snapshot_record
  (max_metrics max_trades : Z) (s0 : MarketStore) (ops : list op) :
  init max_metrics max_trades = Returns s0 ->
  let snap := snapshot (run s0 ops) in
  let kept := last_n max_metrics (calls_since_clear ops) in
  Snap.data_points snap = Z.of_nat (length (Snap.mid_prices snap)) /\
  (length (Snap.spreads snap) = length (Snap.mid_prices snap) /\
   length (Snap.imbalances snap) = length (Snap.mid_prices snap) /\
   length (Snap.timestamps snap) = length (Snap.mid_prices snap)) /\
  Snap.last_update snap = final (Snap.timestamps snap) /\
  Snap.recent_trades snap =
    rev (last_n max_trades (trades_since_clear ops)) /\
  (Snap.mid_prices snap = map Call.mid_price kept /\
   Snap.spreads snap = map Call.spread kept /\
   Snap.imbalances snap = map Call.imbalance kept /\
   Snap.timestamps snap = map Call.timestamp kept).
Proof.
  intros Hinit snap kept.
  pose proof (run_windows _ _ _ ops Hinit) as Hw. unfold windows in Hw.
  fold kept in Hw. destruct Hw as (Hmid & Hsp & Him & Hts & Htr).
  unfold snap, snapshot. cbn [Snap.data_points Snap.mid_prices Snap.spreads
    Snap.imbalances Snap.timestamps Snap.last_update Snap.recent_trades].
  rewrite deque_last_final. unfold Deque.len, Deque.to_list, Deque.reversed.
  rewrite Hmid, Hsp, Him, Hts, Htr. simpl. rewrite !length_map.
  repeat split.
Qed.

Lemma snapshot_record_witness :
  init 2 2 = Returns (empty_store 2 2) /\
  Snap.recent_trades
    (snapshot
       (run (empty_store 2 2)
          [AddTrade (sample_trade 1); Update (sample_call 1);
           AddTrade (sample_trade 2); AddTrade (sample_trade 3)])) =
  [sample_trade 3; sample_trade 2].
Proof.
  assert (Hinit : init 2 2 = Returns (empty_store 2 2)) by reflexivity.
  split; [exact Hinit|].
  destruct (snapshot_record 2 2 _
              [AddTrade (sample_trade 1); Update (sample_call 1);
               AddTrade (sample_trade 2); AddTrade (sample_trade 3)] Hinit)
    as (_ & _ & _ & H & _).
  exact H.
Defined.






(** ** The claims about [_process_depth_update] *)


(** C4. A depth update whose bids or asks are empty leaves the store as it
    was: no point is added to any of the four series, and [best_bid],
    [best_ask], the volumes and the top levels keep their values. *)
Theorem empty_side_is_no_op (s : MarketStore) (data : depth_data) (now : Q) :
  get_levels (bids data) = [] \/ get_levels (asks data) = [] ->
  _process_depth_update s data now = s.
Proof.
  intros H. unfold _process_depth_update, depth_metrics.
  destruct H as [Hb|Ha].
  - rewrite Hb. simpl.
    destruct (parse_levels (get_levels (asks data))); reflexivity.
  - rewrite Ha. simpl.
    destruct (parse_levels (get_levels (bids data))) as [[|b bs]|];
      reflexivity.
Qed.

Lemma empty_side_is_no_op_witness :
  (get_levels (bids (mkDepth (Some [Pair (Num 100) (Num 1)]) (Some []))) = [] \/
   get_levels (asks (mkDepth (Some [Pair (Num 100) (Num 1)]) (Some []))) = []) /\
  _process_depth_update
    (update_book_metrics (empty_store 3 3) (sample_call 7))
    (mkDepth (Some [Pair (Num 100) (Num 1)]) (Some [])) 5 =
  update_book_metrics (empty_store 3 3) (sample_call 7).
Proof.
  assert (H : get_levels
                (bids (mkDepth (Some [Pair (Num 100) (Num 1)]) (Some []))) = [] \/
              get_levels
                (asks (mkDepth (Some [Pair (Num 100) (Num 1)]) (Some []))) = [])
    by (right; reflexivity).
  split; [exact H|].
  exact (empty_side_is_no_op _ _ 5 H).
Defined.

Section Levels.
Variable P : level -> Prop.
Variable first : Q -> Q -> bool.



End Levels.







(** What a depth update that reaches the store has computed. *)
Lemma depth_metrics_inv (data : depth_data) (now : Q) (u : Call.t) :
  depth_metrics data now = Metrics u ->
  exists bids0 asks0 best_bid bid_qty sbids best_ask ask_qty sasks,
    parse_levels (get_levels (bids data)) = Returns bids0 /\
    parse_levels (get_levels (asks data)) = Returns asks0 /\
    sort_bids bids0 = (best_bid, bid_qty) :: sbids /\
    sort_asks asks0 = (best_ask, ask_qty) :: sasks /\
    u = Call.mk best_bid best_ask ((best_bid + best_ask) / 2)%Q
          (best_ask - best_bid)%Q
          (imbalance_of (sum_qty (firstn TOP_N (sort_bids bids0)))
             (sum_qty (firstn TOP_N (sort_asks asks0))))
          now bid_qty ask_qty
          (Some (firstn TOP_N (sort_bids bids0)))
          (Some (firstn TOP_N (sort_asks asks0))).
Proof.
  unfold depth_metrics. intros E.
  destruct (parse_levels (get_levels (bids data))) as [bids0|]; [|discriminate].
  destruct (parse_levels (get_levels (asks data))) as [asks0|]; [|discriminate].
  destruct bids0 as [|b bids0]; [discriminate|].
  destruct asks0 as [|a asks0]; [discriminate|].
  cbv zeta in E.
  destruct (sort_bids (b :: bids0)) as [|[best_bid bid_qty] sbids] eqn:Hb;
    [discriminate|].
  destruct (sort_asks (a :: asks0)) as [|[best_ask ask_qty] sasks] eqn:Ha;
    [discriminate|].
  injection E as <-.
  exists (b :: bids0), (a :: asks0), best_bid, bid_qty, sbids,
    best_ask, ask_qty, sasks.
  rewrite Hb, Ha. repeat (split; [reflexivity|]). reflexivity.
Qed.

(** Every call that [_process_depth_update] makes on the store passes its
    top levels, and they start at the best prices it passes. *)
Lemma depth_metrics_ingestion_call (data : depth_data) (now : Q) (u : Call.t) :
  depth_metrics data now = Metrics u -> ingestion_call u.
Proof.
  intros E.
  destruct (depth_metrics_inv _ _ _ E)
    as (bids0 & asks0 & bb & bq & sb & ba & aq & sa & _ & _ & Hb & Ha & ->).
  unfold ingestion_call. cbn [Call.best_bid Call.best_ask Call.top_bids
    Call.top_asks]. rewrite Hb, Ha. split; reflexivity.
Qed.



(** ** The claims about reconnection and failover *)

Lemma backoff_step (k : nat) :
  py_min (backoff_delay k * RECONNECT_MULTIPLIER) RECONNECT_MAX_DELAY =
  backoff_delay (S k).
Proof. destruct k as [|[|[|[|[|k]]]]]; reflexivity. Qed.

Lemma stream_loop_refusals (flags : list bool) :
  forall (c : client) (k : nat),
    running c = true ->
    _reconnect_delay c = backoff_delay k ->
    stream_loop c (refusals flags) =
    (mkClient true (backoff_delay (k + length flags))
       (slept c ++ map backoff_delay (seq k (length flags))),
     Looping).
Proof.
  induction flags as [|m flags IH]; intros [r d sl] k Hr Hd; simpl in *; subst.
  - rewrite Nat.add_0_r, app_nil_r. reflexivity.
  - unfold on_exception. simpl. rewrite backoff_step.
    rewrite (IH _ (S k)) by reflexivity. simpl.
    rewrite <- app_assoc, Nat.add_succ_r. reflexivity.
Qed.

(** C6. The delay of a new client is 1; a run of consecutive refused
    connections sleeps 1, 2, 4, 8, 16, 30, 30, ... seconds, each delay twice
    the one before up to the ceiling of 30; and after a successful
    connection, whatever the delay was, the next run of refusals starts
    again from 1. *)
Theorem backoff_sequence :
  _reconnect_delay new_client = 1%Q /\
  map backoff_delay (seq 0 7) = [1; 2; 4; 8; 16; 30; 30]%Q /\
  (forall n : nat,
      backoff_delay (S n) =
      py_min (backoff_delay n * 2) 30) /\
  (forall flags : list bool,
      connect_and_stream new_client (refusals flags) =
      (mkClient true (backoff_delay (length flags))
         (map backoff_delay (seq 0 (length flags))),
       Looping)) /\
  (forall (c : client) (flags : list bool),
      connect_and_stream c (Established Dropped :: refusals flags) =
      (mkClient true (backoff_delay (length flags))
         (slept c ++ map backoff_delay (seq 0 (length flags))),
       Looping)) /\
  (forall (c : client) (m : bool) (flags : list bool),
      connect_and_stream c
        (Established (Escaped (mkExn true m) false) :: refusals flags) =
      (mkClient true (backoff_delay (S (length flags)))
         (slept c ++ map backoff_delay (seq 0 (S (length flags)))),
       Looping)).
Proof.
  split; [reflexivity|]. split; [reflexivity|].
  split; [intros n; symmetry; apply backoff_step|].
  split; [|split].
  - intros flags. unfold connect_and_stream.
    rewrite (stream_loop_refusals flags _ 0%nat); reflexivity.
  - intros c flags. unfold connect_and_stream. simpl.
    rewrite (stream_loop_refusals flags _ 0%nat); reflexivity.
  - intros c m flags. unfold connect_and_stream. simpl.
    unfold on_exception. simpl.
    rewrite (stream_loop_refusals flags _ 1%nat) by reflexivity.
    simpl. rewrite <- app_assoc. reflexivity.
Qed.

(** No [Exception] leaves the connection loop: its own handler takes
    every one of them. *)
Lemma stream_loop_propagates (attempts : list attempt) :
  forall (c c' : client) (e : exn),
    stream_loop c attempts = (c', Propagates e) -> is_Exception e = false.
Proof.
  induction attempts as [|a attempts IH]; intros c c' e; simpl.
  - destruct (running c); discriminate.
  - destruct (running c); [|discriminate].
    destruct (loop_body c a) as [c1 st] eqn:Hbody.
    destruct st as [| |e1].
    + apply IH.
    + discriminate.
    + intros E. injection E as _ <-.
      assert (Hon : forall c0 e0 sc c2 e2,
                 on_exception c0 e0 sc = (c2, Propagates e2) ->
                 is_Exception e2 = false).
      { intros c0 e0 sc c2 e2. unfold on_exception.
        destruct (is_Exception e0) eqn:He0.
        - destruct (running c0 && negb sc); discriminate.
        - intros E. injection E as _ <-. exact He0. }
      destruct a as [e0 sc|[| |e0 sc]]; simpl in Hbody;
        try discriminate; eapply Hon; eassumption.
Qed.

Lemma try_connect_never_switches (c : client) (count : Z)
  (attempts : list attempt) :
  mock_started (try_connect c count attempts) = false /\
  http_451_count (try_connect c count attempts) = count.
Proof.
  unfold try_connect, connect_and_stream.
  destruct (stream_loop _ attempts) as [c' st] eqn:Hloop.
  destruct st as [| |e]; try (split; reflexivity).
  rewrite (stream_loop_propagates _ _ _ _ Hloop). split; reflexivity.
Qed.

(** C7, on the code. Three consecutive connections refused with HTTP 451
    leave the worker on the live feed: it has slept 1, 2 and 4 seconds, it
    is still in the connection loop, the counter is 0 and the mock
    generator has not been started.  The same holds after any run of
    attempts: the worker started without [use_mock] never starts the mock
    generator and never counts a 451. *)
Theorem three_451_refusals_do_not_switch :
  start_worker false (refusals [true; true; true]) =
  mkWorker (mkClient true 8 [1; 2; 4]%Q) 0 false Looping /\
  (forall attempts : list attempt,
      mock_started (start_worker false attempts) = false /\
      http_451_count (start_worker false attempts) = 0).
Proof.
  split; [reflexivity|].
  intros attempts. apply try_connect_never_switches.
Qed.

(** * Further properties of the store *)

Section Final.
Context {A B : Type} (f : A -> B).

Lemma final_map (l : list A) : final (map f l) = option_map f (final l).
Proof.
  destruct l as [|x l] using rev_ind; [reflexivity|].
  rewrite map_app. simpl map. rewrite !final_snoc. reflexivity.
Qed.

Lemma final_last_n (n : Z) (l : list A) :
  0 < n -> final (last_n n l) = final l.
Proof.
  intros Hn. destruct l as [|x l _] using rev_ind; [reflexivity|].
  rewrite <- trim_last_n by lia. rewrite final_snoc.
  unfold Deque.trim.
  destruct (n <? Z.of_nat (length (last_n n l ++ [x]))) eqn:E.
  - destruct (last_n n l) as [|y w] eqn:Hw.
    + simpl in E. apply Z.ltb_lt in E. lia.
    + simpl. apply final_snoc.
  - apply final_snoc.
Qed.
End Final.

(** The scalar fields of the book are those of the last update call since
    the last [clear], whatever the call passes as top levels. *)
Lemma run_scalars (max_metrics max_trades : Z) (s0 : MarketStore)
  (ops : list op) :
  init max_metrics max_trades = Returns s0 ->
  let last := final (calls_since_clear ops) in
  best_bid (run s0 ops) = option_map Call.best_bid last /\
  best_ask (run s0 ops) = option_map Call.best_ask last /\
  bid_volume (run s0 ops) = option_map Call.bid_volume last /\
  ask_volume (run s0 ops) = option_map Call.ask_volume last.
Proof.
  intros Hinit. apply init_returns in Hinit as (_ & _ & ->).
  induction ops as [|o ops IH] using rev_ind.
  - repeat split.
  - rewrite run_snoc, calls_since_clear_snoc.
    destruct o as [u|t|]; simpl.
    + rewrite final_snoc. repeat split.
    + exact IH.
    + repeat split.
Qed.

(** X1. After any run of calls on a fresh store each series holds as many
    points as there were update calls since the last clear, up to
    [max_metrics], and the trade log as many trades as were added since the
    last clear, up to [max_trades]: no run makes them longer than their
    capacities. *)
Theorem lengths_bounded
  (max_metrics max_trades : Z) (s0 : MarketStore) (ops : list op) :
  init max_metrics max_trades = Returns s0 ->
  let s := run s0 ops in
  let updates := Z.of_nat (length (calls_since_clear ops)) in
  let trades := Z.of_nat (length (trades_since_clear ops)) in
  Deque.len (mid_prices s) = Z.min max_metrics updates /\
  Deque.len (spreads s) = Z.min max_metrics updates /\
  Deque.len (imbalances s) = Z.min max_metrics updates /\
  Deque.len (timestamps s) = Z.min max_metrics updates /\
  Deque.len (recent_trades s) = Z.min max_trades trades /\
  Snap.data_points (snapshot s) <= max_metrics /\
  Z.of_nat (length (Snap.recent_trades (snapshot s))) <= max_trades.
Proof.
  intros Hinit s updates trades.
  pose proof (run_windows _ _ _ ops Hinit) as Hw. unfold windows in Hw.
  fold s in Hw. destruct Hw as (Hmid & Hsp & Him & Hts & Htr).
  apply init_returns in Hinit as (Hm & Ht & _).
  unfold snapshot, Deque.reversed, Deque.len.
  cbn [Snap.data_points Snap.recent_trades].
  rewrite Hmid, Hsp, Him, Hts, Htr. cbn [Deque.items].
  rewrite length_rev, !length_map, !last_n_length by assumption.
  fold updates trades. repeat split; lia.
Qed.

Lemma lengths_bounded_witness :
  init 2 1 = Returns (empty_store 2 1) /\
  Deque.len
    (recent_trades
       (run (empty_store 2 1)
          [AddTrade (sample_trade 1); Update (sample_call 1);
           AddTrade (sample_trade 2); AddTrade (sample_trade 3)])) = 1.
Proof.
  assert (Hinit : init 2 1 = Returns (empty_store 2 1)) by reflexivity.
  split; [exact Hinit|].
  destruct (lengths_bounded 2 1 _
              [AddTrade (sample_trade 1); Update (sample_call 1);
               AddTrade (sample_trade 2); AddTrade (sample_trade 3)] Hinit)
    as (_ & _ & _ & _ & H & _).
  exact H.
Defined.

(** X2. [clear] brings a store that was built by the constructor back to
    the state the constructor gave it, capacities included; so whatever
    ran before a [clear] has no effect on what follows it. *)
Theorem clear_restores_fresh_store
  (max_metrics max_trades : Z) (s0 : MarketStore) (before after : list op) :
  init max_metrics max_trades = Returns s0 ->
  clear (run s0 before) = s0 /\
  run s0 (before ++ Clear :: after) = run s0 after.
Proof.
  intros Hinit.
  pose proof (run_windows _ _ _ before Hinit) as Hw. unfold windows in Hw.
  destruct Hw as (Hmid & Hsp & Him & Hts & Htr).
  apply init_returns in Hinit as (_ & _ & ->).
  assert (Hclear : clear (run (empty_store max_metrics max_trades) before) =
                   empty_store max_metrics max_trades).
  { unfold clear, Deque.clear. rewrite Hmid, Hsp, Him, Hts, Htr. reflexivity. }
  split; [exact Hclear|].
  unfold run in *. rewrite fold_left_app. simpl. rewrite Hclear. reflexivity.
Qed.

Lemma clear_restores_fresh_store_witness :
  init 2 1 = Returns (empty_store 2 1) /\
  run (empty_store 2 1)
    ([Update (sample_call 1); AddTrade (sample_trade 1);
      Update (sample_call 2); Update (sample_call 3)] ++
     Clear :: [Update (sample_call 4)]) =
  run (empty_store 2 1) [Update (sample_call 4)].
Proof.
  assert (Hinit : init 2 1 = Returns (empty_store 2 1)) by reflexivity.
  split; [exact Hinit|].
  exact (proj2 (clear_restores_fresh_store 2 1 _
                  [Update (sample_call 1); AddTrade (sample_trade 1);
                   Update (sample_call 2); Update (sample_call 3)]
                  [Update (sample_call 4)] Hinit)).
Defined.

Lemma filter_snoc {A : Type} (f : A -> bool) (l : list A) (x : A) :
  filter f (l ++ [x]) = filter f l ++ (if f x then [x] else []).
Proof. rewrite filter_app. reflexivity. Qed.

(** X3. Book updates and trades do not interfere: the state after any run
    of calls is the book left by the run without its trades, together with
    the trade log left by the run without its updates.  So the order in
    which an update and a trade reach the store does not matter. *)
Theorem book_and_trades_independent (s : MarketStore) (ops : list op) :
  run s ops =
  with_trades (run s (without_trades ops))
    (recent_trades (run s (without_updates ops))).
Proof.
  induction ops as [|o ops IH] using rev_ind.
  - destruct s; reflexivity.
  - unfold without_trades, without_updates in *.
    rewrite run_snoc, !filter_snoc, IH.
    destruct o as [u|t|]; cbn [app];
      rewrite ?app_nil_r, ?run_snoc; reflexivity.
Qed.

(** X4. With a capacity above zero, the snapshot's [current_mid],
    [current_spread], [current_imbalance] and [last_update], like its
    [best_bid], [best_ask], [bid_volume] and [ask_volume], are the values
    of one call: the last [update_book_metrics] since the last clear; all
    eight are absent when there was none.  With capacity zero the four
    current values stay absent while the best prices are still set. *)
Theorem snapshot_current_from_last_call
  (max_metrics max_trades : Z) (s0 : MarketStore) (ops : list op) :
  init max_metrics max_trades = Returns s0 ->
  let snap := snapshot (run s0 ops) in
  let last := final (calls_since_clear ops) in
  (Snap.best_bid snap = option_map Call.best_bid last /\
   Snap.best_ask snap = option_map Call.best_ask last /\
   Snap.bid_volume snap = option_map Call.bid_volume last /\
   Snap.ask_volume snap = option_map Call.ask_volume last) /\
  (0 < max_metrics ->
   Snap.current_mid snap = option_map Call.mid_price last /\
   Snap.current_spread snap = option_map Call.spread last /\
   Snap.current_imbalance snap = option_map Call.imbalance last /\
   Snap.last_update snap = option_map Call.timestamp last) /\
  (max_metrics = 0 ->
   Snap.current_mid snap = None /\ Snap.current_spread snap = None /\
   Snap.current_imbalance snap = None /\ Snap.last_update snap = None).
Proof.
  intros Hinit snap last.
  pose proof (run_scalars _ _ _ ops Hinit) as Hsc.
  pose proof (run_windows _ _ _ ops Hinit) as Hw. unfold windows in Hw.
  destruct Hw as (Hmid & Hsp & Him & Hts & _).
  unfold snap, snapshot.
  cbn [Snap.best_bid Snap.best_ask Snap.bid_volume Snap.ask_volume
       Snap.current_mid Snap.current_spread Snap.current_imbalance
       Snap.last_update].
  rewrite !deque_last_final, Hmid, Hsp, Him, Hts. cbn [Deque.items].
  rewrite !final_map.
  split; [exact Hsc|]. split.
  - intros Hpos. rewrite final_last_n by assumption. repeat split.
  - intros ->. unfold last_n. simpl Z.to_nat. rewrite Nat.sub_0_r, skipn_all.
    repeat split.
Qed.

Lemma snapshot_current_from_last_call_witness :
  init 2 1 = Returns (empty_store 2 1) /\ 0 < 2 /\
  Snap.current_mid
    (snapshot
       (run (empty_store 2 1)
          [Update (sample_call 1); Update (sample_call 2);
           AddTrade (sample_trade 1); Update (sample_call 3)])) =
  Some (inject_Z 3 + (1 # 2))%Q.
Proof.
  assert (Hinit : init 2 1 = Returns (empty_store 2 1)) by reflexivity.
  assert (Hpos : 0 < 2) by lia.
  split; [exact Hinit|]. split; [exact Hpos|].
  destruct (snapshot_current_from_last_call 2 1 _
              [Update (sample_call 1); Update (sample_call 2);
               AddTrade (sample_trade 1); Update (sample_call 3)] Hinit)
    as (_ & H & _).
  exact (proj1 (H Hpos)).
Defined.

(** * Further properties of the depth update *)

Section SortFacts.
Variable first : Q -> Q -> bool.

Lemma insert_level_perm (x : level) (l : list level) :
  Permutation (insert_level first x l) (x :: l).
Proof.
  induction l as [|y l IH]; simpl; [reflexivity|].
  destruct (first (fst y) (fst x)); [|reflexivity].
  rewrite IH. apply perm_swap.
Qed.

Lemma sort_levels_perm (l : list level) : Permutation (sort_levels first l) l.
Proof.
  induction l as [|x l IH]; simpl; [reflexivity|].
  rewrite insert_level_perm. constructor. exact IH.
Qed.

Lemma sort_levels_length (l : list level) :
  length (sort_levels first l) = length l.
Proof. apply Permutation_length, sort_levels_perm. Qed.

(** [before] is the order the sort aims at: [first] decides it. *)
Variable before : Q -> Q -> Prop.
Hypothesis before_trans : forall a b c, before a b -> before b c -> before a c.
Hypothesis first_true : forall ky kx, first ky kx = true -> before ky kx.
Hypothesis first_false : forall ky kx, first ky kx = false -> before kx ky.




(** Levels at one price keep the order they came in. *)
Hypothesis first_apart :
  forall ky kx k, first ky kx = true ->
                  Qeq_bool ky k && Qeq_bool kx k = false.


End SortFacts.

Section SortedFacts.
Context {A : Type} (R : A -> A -> Prop).


End SortedFacts.











Lemma parse_levels_length (raw : list raw_level) (l : list level) :
  parse_levels raw = Returns l -> length l = length raw.
Proof.
  revert l. induction raw as [|lv raw IH]; simpl; intros l E.
  - injection E as <-. reflexivity.
  - destruct lv as [[p|] [q|]|]; simpl in E; try discriminate.
    destruct (parse_levels raw) as [rest|]; [|discriminate].
    injection E as <-. simpl. rewrite (IH rest); reflexivity.
Qed.





Lemma parse_levels_malformed (raw : list raw_level) :
  Exists (fun lv => ~ well_formed lv) raw ->
  parse_levels raw = Raises ValueError.
Proof.
  induction 1 as [lv raw Hlv|lv raw _ IH]; simpl.
  - destruct lv as [[p|] [q|]|]; simpl; try reflexivity.
    exfalso. apply Hlv. exact I.
  - destruct lv as [[p|] [q|]|]; simpl; try reflexivity.
    rewrite IH. reflexivity.
Qed.

Lemma parse_levels_raises (raw : list raw_level) (e : py_error) :
  parse_levels raw = Raises e -> e = ValueError.
Proof.
  induction raw as [|lv raw IH]; simpl; [discriminate|].
  destruct lv as [[p|] [q|]|]; simpl; try (intros E; congruence).
  destruct (parse_levels raw) as [rest|e']; [discriminate|].
  intros E. injection E as <-. apply IH. reflexivity.
Qed.

Lemma parse_levels_well_formed (raw : list raw_level) :
  Forall well_formed raw -> exists l, parse_levels raw = Returns l.
Proof.
  induction 1 as [|lv raw Hlv _ [l IH]]; simpl; [eexists; reflexivity|].
  destruct lv as [[p|] [q|]|]; simpl in *; try contradiction.
  rewrite IH. eexists; reflexivity.
Qed.

Lemma well_formed_dec (raw : list raw_level) :
  Forall well_formed raw \/ Exists (fun lv => ~ well_formed lv) raw.
Proof.
  induction raw as [|lv raw [IH|IH]].
  - left. constructor.
  - destruct lv as [[p|] [q|]|];
      try (right; constructor; intros H; exact H).
    left. constructor; [exact I|exact IH].
  - right. apply Exists_cons_tl. exact IH.
Qed.

(** X9. One malformed level, a field that is not a number or an entry that
    is not a pair, anywhere among the bids or the asks makes the whole
    depth update be dropped: the store is left as it was, however many
    well-formed levels come with it. *)
Theorem malformed_level_drops_update
  (s : MarketStore) (data : depth_data) (now : Q) :
  Exists (fun lv => ~ well_formed lv) (get_levels (bids data)) \/
  Exists (fun lv => ~ well_formed lv) (get_levels (asks data)) ->
  _process_depth_update s data now = s.
Proof.
  intros H. unfold _process_depth_update, depth_metrics.
  destruct H as [H|H].
  - rewrite (parse_levels_malformed _ H). reflexivity.
  - rewrite (parse_levels_malformed _ H).
    destruct (parse_levels (get_levels (bids data))); reflexivity.
Qed.

Lemma malformed_level_drops_update_witness :
  (Exists (fun lv => ~ well_formed lv)
     (get_levels
        (bids (mkDepth (Some [Pair (Num 100) (Num 1)])
                 (Some [Pair (Num 101) (Num 1); Pair (Num 102) NotANumber])))) \/
   Exists (fun lv => ~ well_formed lv)
     (get_levels
        (asks (mkDepth (Some [Pair (Num 100) (Num 1)])
                 (Some [Pair (Num 101) (Num 1); Pair (Num 102) NotANumber]))))) /\
  _process_depth_update (empty_store 3 3)
    (mkDepth (Some [Pair (Num 100) (Num 1)])
       (Some [Pair (Num 101) (Num 1); Pair (Num 102) NotANumber])) 5 =
  empty_store 3 3.
Proof.
  assert (H : Exists (fun lv => ~ well_formed lv)
     (get_levels
        (bids (mkDepth (Some [Pair (Num 100) (Num 1)])
                 (Some [Pair (Num 101) (Num 1); Pair (Num 102) NotANumber])))) \/
   Exists (fun lv => ~ well_formed lv)
     (get_levels
        (asks (mkDepth (Some [Pair (Num 100) (Num 1)])
                 (Some [Pair (Num 101) (Num 1); Pair (Num 102) NotANumber]))))).
  { right. simpl. apply Exists_cons_tl. apply Exists_cons_hd.
    intros W. exact W. }
  split; [exact H|].
  exact (malformed_level_drops_update (empty_store 3 3) _ 5 H).
Defined.

(** X10. A depth update reaches the store exactly when both sides are
    non-empty and every level is well formed; it then makes one
    [update_book_metrics] call, stamped with the time of processing.  The
    [IndexError] that the handler also catches never occurs. *)
Theorem depth_update_stored_iff
  (s : MarketStore) (data : depth_data) (now : Q) :
  ((exists u, depth_metrics data now = Metrics u) <->
   (Forall well_formed (get_levels (bids data)) /\
    Forall well_formed (get_levels (asks data)) /\
    get_levels (bids data) <> [] /\ get_levels (asks data) <> [])) /\
  (forall u, depth_metrics data now = Metrics u ->
             Call.timestamp u = now /\
             _process_depth_update s data now = update_book_metrics s u) /\
  depth_metrics data now <> Logged IndexError.
Proof.
  assert (Hnil : forall raw, parse_levels raw = Returns [] -> raw = []).
  { intros raw E. apply parse_levels_length in E.
    destruct raw; [reflexivity|discriminate]. }
  assert (Hsort : forall first l, l <> [] -> sort_levels first l <> []).
  { intros first l Hl E. apply Hl.
    pose proof (sort_levels_length first l) as L. rewrite E in L.
    destruct l; [reflexivity|discriminate]. }
  split; [split|split].
  - intros [u E].
    pose proof (depth_metrics_inv _ _ _ E)
      as (bids0 & asks0 & bb & bq & sb & ba & aq & sa
          & Hb & Ha & Hsb & Hsa & _).
    destruct (well_formed_dec (get_levels (bids data))) as [Wb|Wb];
      [|rewrite (parse_levels_malformed _ Wb) in Hb; discriminate].
    destruct (well_formed_dec (get_levels (asks data))) as [Wa|Wa];
      [|rewrite (parse_levels_malformed _ Wa) in Ha; discriminate].
    repeat split; try assumption.
    + intros En. rewrite En in Hb. injection Hb as <-. discriminate.
    + intros En. rewrite En in Ha. injection Ha as <-. discriminate.
  - intros (Wb & Wa & Nb & Na).
    destruct (parse_levels_well_formed _ Wb) as [bids0 Hb].
    destruct (parse_levels_well_formed _ Wa) as [asks0 Ha].
    unfold depth_metrics. rewrite Hb, Ha.
    destruct bids0 as [|b bids0]; [elim Nb; exact (Hnil _ Hb)|].
    destruct asks0 as [|a asks0]; [elim Na; exact (Hnil _ Ha)|].
    cbv zeta.
    destruct (sort_bids (b :: bids0)) as [|[bb bq] sb] eqn:Hsb;
      [exfalso; revert Hsb; apply Hsort; discriminate|].
    destruct (sort_asks (a :: asks0)) as [|[ba aq] sa] eqn:Hsa;
      [exfalso; revert Hsa; apply Hsort; discriminate|].
    eexists. reflexivity.
  - intros u E. unfold _process_depth_update. rewrite E.
    destruct (depth_metrics_inv _ _ _ E)
      as (bids0 & asks0 & bb & bq & sb & ba & aq & sa & _ & _ & _ & _ & ->).
    split; reflexivity.
  - unfold depth_metrics.
    destruct (parse_levels (get_levels (bids data))) as [bids0|e] eqn:Hb;
      [|rewrite (parse_levels_raises _ _ Hb); discriminate].
    destruct (parse_levels (get_levels (asks data))) as [asks0|e] eqn:Ha;
      [|rewrite (parse_levels_raises _ _ Ha); discriminate].
    destruct bids0 as [|b bids0]; [discriminate|].
    destruct asks0 as [|a asks0]; [discriminate|].
    cbv zeta.
    destruct (sort_bids (b :: bids0)) as [|[bb bq] sb] eqn:Hsb;
      [exfalso; revert Hsb; apply Hsort; discriminate|].
    destruct (sort_asks (a :: asks0)) as [|[ba aq] sa] eqn:Hsa;
      [exfalso; revert Hsa; apply Hsort; discriminate|].
    discriminate.
Qed.

Lemma depth_update_stored_iff_witness :
  (Forall well_formed (get_levels (bids sample_depth)) /\
   Forall well_formed (get_levels (asks sample_depth)) /\
   get_levels (bids sample_depth) <> [] /\
   get_levels (asks sample_depth) <> []) /\
  exists u, depth_metrics sample_depth 7 = Metrics u.
Proof.
  assert (H : Forall well_formed (get_levels (bids sample_depth)) /\
              Forall well_formed (get_levels (asks sample_depth)) /\
              get_levels (bids sample_depth) <> [] /\
              get_levels (asks sample_depth) <> []).
  { simpl. repeat split; try discriminate; repeat constructor. }
  split; [exact H|].
  exact (proj2 (proj1 (depth_update_stored_iff (empty_store 1 1)
                         sample_depth 7)) H).
Defined.






(** * Further properties of the connection loop *)

Lemma py_min_ladder (d : Q) :
  In d [1; 2; 4; 8; 16; 30]%Q ->
  In (py_min (d * RECONNECT_MULTIPLIER) RECONNECT_MAX_DELAY)
    [1; 2; 4; 8; 16; 30]%Q.
Proof.
  simpl. intros [<-|[<-|[<-|[<-|[<-|[<-|[]]]]]]]; vm_compute; tauto.
Qed.

Lemma loop_body_ladder (c : client) (a : attempt) :
  In (_reconnect_delay c) [1; 2; 4; 8; 16; 30]%Q ->
  Forall (fun d => In d [1; 2; 4; 8; 16; 30]%Q) (slept c) ->
  In (_reconnect_delay (fst (loop_body c a))) [1; 2; 4; 8; 16; 30]%Q /\
  Forall (fun d => In d [1; 2; 4; 8; 16; 30]%Q) (slept (fst (loop_body c a))).
Proof.
  intros Hd Hs.
  assert (Hon : forall c0 e sc,
             In (_reconnect_delay c0) [1; 2; 4; 8; 16; 30]%Q ->
             Forall (fun d => In d [1; 2; 4; 8; 16; 30]%Q) (slept c0) ->
             In (_reconnect_delay (fst (on_exception c0 e sc)))
               [1; 2; 4; 8; 16; 30]%Q /\
             Forall (fun d => In d [1; 2; 4; 8; 16; 30]%Q)
               (slept (fst (on_exception c0 e sc)))).
  { intros c0 e sc Hd0 Hs0. unfold on_exception.
    destruct (is_Exception e); [destruct (running c0 && negb sc)|];
      cbn [fst _reconnect_delay slept]; try (split; assumption).
    split; [apply py_min_ladder; exact Hd0|].
    apply Forall_app. split; [exact Hs0|]. constructor; [exact Hd0|constructor]. }
  destruct a as [e sc|[| |e sc]]; cbn [loop_body].
  - apply Hon; assumption.
  - cbn [fst _reconnect_delay slept]. split; [left; reflexivity|exact Hs].
  - cbn [fst _reconnect_delay slept]. split; [left; reflexivity|exact Hs].
  - apply Hon; cbn [_reconnect_delay slept]; [left; reflexivity|exact Hs].
Qed.

Lemma stream_loop_ladder (attempts : list attempt) :
  forall c : client,
    In (_reconnect_delay c) [1; 2; 4; 8; 16; 30]%Q ->
    Forall (fun d => In d [1; 2; 4; 8; 16; 30]%Q) (slept c) ->
    In (_reconnect_delay (fst (stream_loop c attempts)))
      [1; 2; 4; 8; 16; 30]%Q /\
    Forall (fun d => In d [1; 2; 4; 8; 16; 30]%Q)
      (slept (fst (stream_loop c attempts))).
Proof.
  induction attempts as [|a attempts IH]; intros c Hd Hs; cbn [stream_loop].
  - split; assumption.
  - destruct (running c); [|split; assumption].
    pose proof (loop_body_ladder c a Hd Hs) as [Hd' Hs'].
    destruct (loop_body c a) as [c' [| |e]]; cbn [fst] in *;
      try (split; assumption).
    apply IH; assumption.
Qed.

(** X13. Whatever the connection attempts bring, the reconnect delay of a
    client is always one of 1, 2, 4, 8, 16 and 30 seconds, and so is every
    sleep the loop has made: it never waits less than 1 second or more
    than 30 before the next attempt. *)
Theorem delays_stay_on_the_ladder (attempts : list attempt) :
  let c := fst (connect_and_stream new_client attempts) in
  In (_reconnect_delay c) [1; 2; 4; 8; 16; 30]%Q /\
  Forall (fun d => In d [1; 2; 4; 8; 16; 30]%Q) (slept c) /\
  (1 <= _reconnect_delay c)%Q /\ (_reconnect_delay c <= 30)%Q /\
  Forall (fun d => (1 <= d)%Q /\ (d <= 30)%Q) (slept c).
Proof.
  intros c.
  assert (Hb : forall d, In d [1; 2; 4; 8; 16; 30]%Q ->
                         (1 <= d)%Q /\ (d <= 30)%Q).
  { simpl. intros d [<-|[<-|[<-|[<-|[<-|[<-|[]]]]]]]; split; lra. }
  destruct (stream_loop_ladder attempts
              (mkClient true (_reconnect_delay new_client) (slept new_client)))
    as [Hd Hs]; [left; reflexivity|constructor|].
  fold (connect_and_stream new_client attempts) in Hd, Hs. fold c in Hd, Hs.
  split; [exact Hd|]. split; [exact Hs|].
  split; [apply Hb, Hd|]. split; [apply Hb, Hd|].
  eapply Forall_impl; [|exact Hs]. exact Hb.
Qed.

Lemma stream_loop_recoverable (attempts : list attempt) :
  forall c : client,
    running c = true -> forallb recoverable attempts = true ->
    snd (stream_loop c attempts) = Looping /\
    running (fst (stream_loop c attempts)) = true.
Proof.
  induction attempts as [|a attempts IH]; intros c Hr Hall; cbn [stream_loop].
  - rewrite Hr. split; [reflexivity|exact Hr].
  - rewrite Hr. simpl in Hall. apply andb_prop in Hall as [Ha Hall].
    assert (Hbody : snd (loop_body c a) = Looping /\
                    running (fst (loop_body c a)) = true).
    { destruct a as [e sc|[| |e sc]]; simpl in Ha; try discriminate;
        cbn [loop_body]; unfold on_exception; cbn [running];
        try (apply andb_prop in Ha as [He Hsc]; rewrite He, Hsc, ?Hr);
        simpl; auto. }
    destruct (loop_body c a) as [c' st]. cbn [fst snd] in Hbody.
    destruct Hbody as [-> Hr']. apply IH; assumption.
Qed.

Lemma stream_loop_finished (attempts : list attempt) :
  forall c : client,
    running c = true ->
    snd (stream_loop c attempts) = Finished ->
    existsb stops attempts = true.
Proof.
  induction attempts as [|a attempts IH]; intros c Hr; cbn [stream_loop];
    rewrite Hr.
  - discriminate.
  - simpl existsb. destruct (stops a) eqn:Hs; [reflexivity|]. simpl.
    assert (Hbody : snd (loop_body c a) <> Finished /\
                    (snd (loop_body c a) = Looping ->
                     running (fst (loop_body c a)) = true)).
    { destruct a as [e sc|[| |e sc]]; simpl in Hs; try discriminate; subst;
        cbn [loop_body]; unfold on_exception; cbn [running];
        rewrite ?Hr; try destruct (is_Exception e); simpl;
        split; try discriminate; auto. }
    destruct (loop_body c a) as [c' [| |e]]; cbn [fst snd] in *.
    + apply IH. apply Hbody. reflexivity.
    + intros _. exfalso. apply (proj1 Hbody). reflexivity.
    + discriminate.
Qed.

(** X14. The connection loop does not give up: as long as [stop()] is not
    called and nothing but [Exception]s is raised, it is still looping
    after any number of refused, dropped or failed connections.  It ends
    normally only when [stop()] has been called, and an exception leaves
    it only when it is not an [Exception]. *)
Theorem loop_ends_only_on_stop (c : client) (attempts : list attempt) :
  (forallb recoverable attempts = true ->
   snd (connect_and_stream c attempts) = Looping /\
   running (fst (connect_and_stream c attempts)) = true) /\
  (snd (connect_and_stream c attempts) = Finished ->
   existsb stops attempts = true) /\
  (forall e, snd (connect_and_stream c attempts) = Propagates e ->
             is_Exception e = false).
Proof.
  unfold connect_and_stream. split; [|split].
  - apply stream_loop_recoverable. reflexivity.
  - apply stream_loop_finished. reflexivity.
  - intros e E.
    destruct (stream_loop _ attempts) as [c' st] eqn:Hloop.
    simpl in E. subst st. exact (stream_loop_propagates _ _ _ _ Hloop).
Qed.

Lemma loop_ends_only_on_stop_witness :
  forallb recoverable
    [Refused (mkExn true true) false; Established Dropped;
     Established (Escaped (mkExn true false) false);
     Refused (mkExn true false) false] = true /\
  snd (connect_and_stream new_client
         [Refused (mkExn true true) false; Established Dropped;
          Established (Escaped (mkExn true false) false);
          Refused (mkExn true false) false]) = Looping.
Proof.
  assert (H : forallb recoverable
    [Refused (mkExn true true) false; Established Dropped;
     Established (Escaped (mkExn true false) false);
     Refused (mkExn true false) false] = true) by reflexivity.
  split; [exact H|].
  exact (proj1 (proj1 (loop_ends_only_on_stop new_client _) H)).
Defined.

Lemma stream_loop_stays_ended (attempts more : list attempt) :
  forall c : client,
    snd (stream_loop c attempts) <> Looping ->
    stream_loop c (attempts ++ more) = stream_loop c attempts.
Proof.
  induction attempts as [|a attempts IH]; intros c; cbn [stream_loop app].
  - destruct (running c) eqn:Hr; [intros H; elim H; reflexivity|].
    intros _. destruct more; cbn [stream_loop]; rewrite Hr; reflexivity.
  - destruct (running c); [|reflexivity].
    destruct (loop_body c a) as [c' [| |e]]; try reflexivity.
    apply IH.
Qed.

(** X15. Once the loop has ended, by [stop()] or by an exception that
    left it, it does not resume: no further connection is attempted, the
    client keeps its state and nothing more is slept. *)
Theorem ended_loop_does_not_resume
  (c : client) (attempts more : list attempt) :
  snd (connect_and_stream c attempts) <> Looping ->
  connect_and_stream c (attempts ++ more) = connect_and_stream c attempts.
Proof. unfold connect_and_stream. apply stream_loop_stays_ended. Qed.

Lemma ended_loop_does_not_resume_witness :
  snd (connect_and_stream new_client
         [Refused (mkExn true true) false; Established StopCalled]) <> Looping /\
  connect_and_stream new_client
    ([Refused (mkExn true true) false; Established StopCalled] ++
     [Refused (mkExn true true) false; Established Dropped]) =
  (mkClient false 1 [1]%Q, Finished).
Proof.
  assert (H : snd (connect_and_stream new_client
                     [Refused (mkExn true true) false; Established StopCalled])
              <> Looping) by discriminate.
  split; [exact H|].
  rewrite (ended_loop_does_not_resume new_client _
             [Refused (mkExn true true) false; Established Dropped] H).
  reflexivity.
Defined.

Lemma stream_loop_sleeps (attempts : list attempt) :
  forall c : client,
    running c = true -> forallb recoverable attempts = true ->
    length (slept (fst (stream_loop c attempts))) =
    (length (slept c) + length (filter fails attempts))%nat.
Proof.
  induction attempts as [|a attempts IH]; intros c Hr Hall; cbn [stream_loop].
  - rewrite Hr. simpl. lia.
  - rewrite Hr. simpl in Hall. apply andb_prop in Hall as [Ha Hall].
    assert (Hbody : snd (loop_body c a) = Looping /\
                    running (fst (loop_body c a)) = true /\
                    length (slept (fst (loop_body c a))) =
                    (length (slept c) + if fails a then 1 else 0)%nat).
    { destruct a as [e sc|[| |e sc]]; simpl in Ha; try discriminate;
        cbn [loop_body fails]; unfold on_exception; cbn [running slept];
        try (apply andb_prop in Ha as [He Hsc]; rewrite He, Hsc);
        rewrite ?Hr; cbn [andb fst snd running slept];
        rewrite ?length_app; simpl; repeat split; auto; lia. }
    destruct (loop_body c a) as [c' st]. cbn [fst snd] in Hbody.
    destruct Hbody as (-> & Hr' & Hlen).
    rewrite (IH c' Hr' Hall), Hlen. cbn [filter].
    destruct (fails a); simpl; lia.
Qed.

(** X16. While [stop()] is not called the loop sleeps exactly once for
    each attempt that ends in its [except] clause; a connection that was
    established and then dropped is followed by the next attempt without
    any sleep, however often that happens in a row. *)
Theorem one_sleep_per_failure (c : client) (attempts : list attempt) :
  forallb recoverable attempts = true ->
  length (slept (fst (connect_and_stream c attempts))) =
  (length (slept c) + length (filter fails attempts))%nat /\
  (forall n : nat,
      connect_and_stream c (repeat (Established Dropped) (S n)) =
      (mkClient true RECONNECT_BASE_DELAY (slept c), Looping)).
Proof.
  intros Hall. split.
  - unfold connect_and_stream.
    rewrite stream_loop_sleeps by (try reflexivity; exact Hall). reflexivity.
  - intros n. unfold connect_and_stream. cbn [repeat stream_loop running].
    cbn [loop_body running slept].
    induction n as [|n IH]; [reflexivity|].
    cbn [repeat stream_loop running loop_body slept]. exact IH.
Qed.

Lemma one_sleep_per_failure_witness :
  forallb recoverable
    [Established Dropped; Refused (mkExn true true) false;
     Established Dropped; Established (Escaped (mkExn true false) false)] =
  true /\
  length
    (slept
       (fst (connect_and_stream new_client
               [Established Dropped; Refused (mkExn true true) false;
                Established Dropped;
                Established (Escaped (mkExn true false) false)]))) = 2%nat.
Proof.
  assert (H : forallb recoverable
    [Established Dropped; Refused (mkExn true true) false;
     Established Dropped; Established (Escaped (mkExn true false) false)] =
  true) by reflexivity.
  split; [exact H|].
  exact (proj1 (one_sleep_per_failure new_client _ H)).
Defined.

(** * Properties of the trade handler and of message routing *)







Lemma string_append_assoc (a b c : string) :
  String.append (String.append a b) c = String.append a (String.append b c).
Proof.
  induction a as [|x a IH]; cbn [String.append]; [reflexivity|].
  rewrite IH. reflexivity.
Qed.

Lemma prefix_append (p s : string) : prefix p (String.append p s) = true.
Proof.
  induction p as [|a p IH]; simpl; [destruct s; reflexivity|].
  destruct (ascii_dec a a) as [_|N]; [exact IH|elim N; reflexivity].
Qed.

Lemma contains_prefix (p hay : string) :
  prefix p hay = true -> contains p hay = true.
Proof. destruct hay; simpl; intros ->; reflexivity. Qed.

Lemma contains_append_l (p x hay : string) :
  contains p hay = true -> contains p (String.append x hay) = true.
Proof.
  intros H. induction x as [|c x IH]; simpl; [exact H|].
  rewrite IH. apply orb_true_r.
Qed.

Lemma prefix_append_r (p x y : string) :
  prefix p x = true -> prefix p (String.append x y) = true.
Proof.
  revert x. induction p as [|a p IH]; intros [|b x];
    cbn [prefix String.append]; try discriminate.
  - intros _. destruct y; reflexivity.
  - intros _. reflexivity.
  - destruct (ascii_dec a b); [apply IH|discriminate].
Qed.

Lemma contains_append_r (p x y : string) :
  contains p x = true -> contains p (String.append x y) = true.
Proof.
  induction x as [|c x IH].
  - cbn [contains String.append]. intros H.
    apply contains_prefix. destruct p; [destruct y; reflexivity|discriminate].
  - cbn [contains String.append]. intros H.
    apply orb_true_iff in H as [H|H].
    + pose proof (prefix_append_r p (String c x) y H) as G.
      cbn [String.append] in G. rewrite G. reflexivity.
    + rewrite (IH H). apply orb_true_r.
Qed.

Lemma contains_middle (p x y : string) :
  contains p (String.append x (String.append p y)) = true.
Proof. apply contains_append_l, contains_prefix, prefix_append. Qed.

Lemma prefix_depth_at_trade (x : string) :
  prefix "depth" x = false ->
  prefix "depth" (String.append x "@trade") = false.
Proof.
  do 5 (destruct x as [|? x]; [intros _; reflexivity|];
        cbn [prefix String.append];
        match goal with
        | |- context [ascii_dec ?a ?b] => destruct (ascii_dec a b)
        end; [|intros _; reflexivity]).
  destruct x; discriminate.
Qed.

Lemma contains_depth_at_trade (x : string) :
  contains "depth" x = false ->
  contains "depth" (String.append x "@trade") = false.
Proof.
  induction x as [|c x IH].
  - intros _. reflexivity.
  - cbn [contains String.append]. intros H.
    apply orb_false_elim in H as [Hp Hc].
    rewrite (IH Hc), orb_false_r.
    exact (prefix_depth_at_trade (String c x) Hp).
Qed.

(** X19. A message that is not JSON, an object without ["stream"] or
    without ["data"], and a message of a stream whose name mentions
    neither "depth" nor "trade" all leave the store as it was. *)
Theorem unrouted_message_changes_nothing
  (s : MarketStore) (msg : message) (now : Q) :
  (msg = NotJson \/
   (exists d, msg = Envelope None d) \/
   (exists n, msg = Envelope n None) \/
   (exists n d, msg = Envelope (Some n) (Some d) /\
                contains "depth" n = false /\ contains "trade" n = false)) ->
  _process_message s msg now = s.
Proof.
  intros [->|[[d ->]|[[n ->]|(n & d & -> & Hd & Ht)]]]; simpl.
  - reflexivity.
  - reflexivity.
  - destruct n; reflexivity.
  - rewrite Hd, Ht. reflexivity.
Qed.

Lemma unrouted_message_changes_nothing_witness :
  (Envelope (Some "btcusdt@kline_1m"%string) (Some sample_trade_data) = NotJson \/
   (exists d,
       Envelope (Some "btcusdt@kline_1m"%string) (Some sample_trade_data) =
       Envelope None d) \/
   (exists n,
       Envelope (Some "btcusdt@kline_1m"%string) (Some sample_trade_data) =
       Envelope n None) \/
   (exists n d,
       Envelope (Some "btcusdt@kline_1m"%string) (Some sample_trade_data) =
       Envelope (Some n) (Some d) /\
       contains "depth" n = false /\ contains "trade" n = false)) /\
  _process_message (empty_store 3 3)
    (Envelope (Some "btcusdt@kline_1m"%string) (Some sample_trade_data)) 5 =
  empty_store 3 3.
Proof.
  assert (H :
   Envelope (Some "btcusdt@kline_1m"%string) (Some sample_trade_data) = NotJson \/
   (exists d,
       Envelope (Some "btcusdt@kline_1m"%string) (Some sample_trade_data) =
       Envelope None d) \/
   (exists n,
       Envelope (Some "btcusdt@kline_1m"%string) (Some sample_trade_data) =
       Envelope n None) \/
   (exists n d,
       Envelope (Some "btcusdt@kline_1m"%string) (Some sample_trade_data) =
       Envelope (Some n) (Some d) /\
       contains "depth" n = false /\ contains "trade" n = false)).
  { right. right. right. eexists _, _. repeat split. }
  split; [exact H|].
  exact (unrouted_message_changes_nothing (empty_store 3 3) _ 5 H).
Defined.

(** X20. The two streams a client subscribes to are routed to their
    handlers: a message of [<symbol>@depth@100ms] is handled as a depth
    update, and, when the symbol does not itself contain "depth", a
    message of [<symbol>@trade] is handled as a trade. *)
Theorem subscribed_streams_are_routed
  (s : MarketStore) (symbol : string) (data : stream_data) (now : Q) :
  _process_message s (Envelope (Some (depth_stream symbol)) (Some data)) now =
    _process_depth_update s (depth_keys data) now /\
  (contains "depth" symbol = false ->
   _process_message s (Envelope (Some (trade_stream symbol)) (Some data)) now =
     _process_trade_update s data).
Proof.
  unfold depth_stream, trade_stream. cbn [_process_message]. split.
  - change (String.append symbol "@depth@100ms")
      with (String.append symbol
              (String.append "@" (String.append "depth" "@100ms"))).
    rewrite <- string_append_assoc, contains_middle. reflexivity.
  - intros H. rewrite (contains_depth_at_trade _ H).
    change (String.append symbol "@trade")
      with (String.append symbol
              (String.append "@" (String.append "trade" ""))).
    rewrite <- string_append_assoc, contains_middle. reflexivity.
Qed.

Lemma subscribed_streams_are_routed_witness :
  contains "depth" "btcusdt" = false /\
  _process_message (empty_store 1000 100)
    (Envelope (Some (trade_stream "btcusdt")) (Some sample_trade_data)) 5 =
  _process_trade_update (empty_store 1000 100) sample_trade_data.
Proof.
  assert (H : contains "depth" "btcusdt" = false) by reflexivity.
  split; [exact H|].
  exact (proj2 (subscribed_streams_are_routed (empty_store 1000 100)
                  "btcusdt" sample_trade_data 5) H).
Defined.

(** X21. "depth" is looked for first: a message of any stream whose name
    contains "depth" never adds a trade, even when the name also contains
    "trade" and the payload is a complete trade.  For a symbol that
    contains "depth" the trades of its own trade stream are therefore all
    lost. *)
Theorem depth_name_shadows_trades
  (s : MarketStore) (name : string) (data : stream_data) (now : Q) :
  (contains "depth" name = true ->
   recent_trades (_process_message s (Envelope (Some name) (Some data)) now) =
   recent_trades s) /\
  (forall symbol,
      contains "depth" symbol = true ->
      recent_trades
        (_process_message s
           (Envelope (Some (trade_stream symbol)) (Some data)) now) =
      recent_trades s).
Proof.
  assert (Hdepth : forall d, recent_trades (_process_depth_update s d now) =
                             recent_trades s).
  { intros d. unfold _process_depth_update.
    destruct (depth_metrics d now); reflexivity. }
  assert (Hname : forall n, contains "depth" n = true ->
             recent_trades
               (_process_message s (Envelope (Some n) (Some data)) now) =
             recent_trades s).
  { intros n H. cbn [_process_message]. rewrite H. apply Hdepth. }
  split; [apply Hname|].
  intros symbol H. apply Hname. unfold trade_stream.
  apply contains_append_r. exact H.
Qed.

Lemma depth_name_shadows_trades_witness :
  contains "depth" "depthusdt" = true /\
  recent_trades
    (_process_message (empty_store 1000 100)
       (Envelope (Some (trade_stream "depthusdt")) (Some sample_trade_data)) 5) =
  recent_trades (empty_store 1000 100).
Proof.
  assert (H : contains "depth" "depthusdt" = true) by reflexivity.
  split; [exact H|].
  exact (proj2 (depth_name_shadows_trades (empty_store 1000 100)
                  "" sample_trade_data 5) "depthusdt"%string H).
Defined.

(** * Properties of the stream URL and of the dashboard caption *)

Lemma string_append_nil_r (s : string) : String.append s "" = s.
Proof.
  induction s as [|c s IH]; cbn [String.append]; [reflexivity|].
  rewrite IH. reflexivity.
Qed.

Lemma contains_self (p : string) : contains p p = true.
Proof.
  apply contains_prefix.
  rewrite <- (string_append_nil_r p) at 2. apply prefix_append.
Qed.

Lemma lower_char_idempotent (c : ascii) :
  lower_char (lower_char c) = lower_char c.
Proof. destruct c as [[] [] [] [] [] [] [] []]; reflexivity. Qed.

Lemma lower_idempotent (s : string) : lower (lower s) = lower s.
Proof.
  induction s as [|c s IH]; simpl; [reflexivity|].
  rewrite lower_char_idempotent, IH. reflexivity.
Qed.

(** X22. The URL of a client does not depend on the case of the letters of
    its symbol.  It starts with the address of the combined stream
    endpoint and names the two streams of the lowered symbol, the depth
    stream and the trade stream, which are the names [_process_message]
    routes. *)
Theorem ws_url_names_both_streams (symbol : string) :
  ascii_only symbol = true ->
  ws_url (lower symbol) = ws_url symbol /\
  prefix "wss://stream.binance.com:9443/stream?streams=" (ws_url symbol) = true /\
  contains (depth_stream (lower symbol)) (ws_url symbol) = true /\
  contains (trade_stream (lower symbol)) (ws_url symbol) = true /\
  contains "depth" (depth_stream (lower symbol)) = true /\
  contains "trade" (trade_stream (lower symbol)) = true.
Proof.
  intros _. unfold ws_url, _build_stream_url. cbv zeta.
  rewrite lower_idempotent. split; [reflexivity|].
  set (sym := lower symbol).
  split; [|split; [|split; [|split]]].
  - change "wss://stream.binance.com:9443/stream?streams="%string
      with (String.append "wss://stream.binance.com:9443/stream" "?streams=").
    rewrite <- string_append_assoc. apply prefix_append.
  - do 2 apply contains_append_l. apply contains_prefix, prefix_append.
  - do 4 apply contains_append_l. apply contains_self.
  - unfold depth_stream.
    change "@depth@100ms"%string
      with (String.append "@" (String.append "depth" "@100ms")).
    rewrite <- string_append_assoc. apply contains_middle.
  - unfold trade_stream.
    change "@trade"%string
      with (String.append "@" (String.append "trade" "")).
    rewrite <- string_append_assoc. apply contains_middle.
Qed.

Lemma ws_url_names_both_streams_witness :
  ascii_only "ETHUSDT" = true /\
  ws_url "ETHUSDT" =
  "wss://stream.binance.com:9443/stream?streams=ethusdt@depth@100ms/ethusdt@trade"%string /\
  ws_url (lower "ETHUSDT") = ws_url "ETHUSDT".
Proof.
  assert (H : ascii_only "ETHUSDT" = true) by reflexivity.
  split; [exact H|]. split; [reflexivity|].
  exact (proj1 (ws_url_names_both_streams "ETHUSDT" H)).
Defined.




(** * The store under a stream of messages *)

Lemma process_message_op (s : MarketStore) (msg : message) (now : Q) :
  _process_message s msg now = s \/
  exists o, from_message o /\ _process_message s msg now = apply_op s o.
Proof.
  destruct msg as [|[name|] [data|]]; cbn [_process_message]; auto.
  destruct (contains "depth" name).
  - unfold _process_depth_update.
    destruct (depth_metrics (depth_keys data) now) as [|e|u] eqn:E; auto.
    right. exists (Update u). split; [|reflexivity].
    exists (depth_keys data), now. exact E.
  - destruct (contains "trade" name); auto.
    unfold _process_trade_update.
    destruct (trade_of data) as [e|t] eqn:E; auto.
    right. exists (AddTrade t). split; [|reflexivity].
    exists data. exact E.
Qed.

Lemma process_messages_run (msgs : list (message * Q)) :
  forall s : MarketStore,
  exists ops,
    process_messages s msgs = run s ops /\
    Forall from_message ops /\
    (length ops <= length msgs)%nat.
Proof.
  induction msgs as [|[msg now] msgs IH]; intros s.
  - exists []. repeat split; [constructor|reflexivity].
  - unfold process_messages. cbn [fold_left fst snd].
    fold (process_messages (_process_message s msg now) msgs).
    destruct (IH (_process_message s msg now)) as (ops & Hrun & Hall & Hlen).
    destruct (process_message_op s msg now) as [E|(o & Ho & E)].
    + exists ops. rewrite Hrun, E. repeat split; [exact Hall|simpl; lia].
    + exists (o :: ops). rewrite Hrun, E.
      repeat split; [constructor; assumption|simpl; lia].
Qed.

Lemma from_message_ingestion (ops : list op) :
  Forall from_message ops -> Forall ingestion_op ops.
Proof.
  intros H. eapply Forall_impl; [|exact H].
  intros [u|t|]; simpl; auto.
  intros (data & now & E). exact (depth_metrics_ingestion_call _ _ _ E).
Qed.

(** X24. Whatever messages a session brings, in whatever order, valid or
    not, the store they leave shows one book: the first of [top_bids] is
    [best_bid] with [bid_volume] and the first of [top_asks] is [best_ask]
    with [ask_volume]; the top lists are empty exactly as long as no depth
    update has been stored; neither list is longer than five; and there
    are no more data points, and no more trades, than messages. *)
Theorem messages_leave_one_book
  (max_metrics max_trades : Z) (s0 : MarketStore) (msgs : list (message * Q)) :
  init max_metrics max_trades = Returns s0 ->
  let snap := snapshot (process_messages s0 msgs) in
  (forall p q rest,
      Snap.top_bids snap = (p, q) :: rest ->
      Snap.best_bid snap = Some p /\ Snap.bid_volume snap = Some q) /\
  (forall p q rest,
      Snap.top_asks snap = (p, q) :: rest ->
      Snap.best_ask snap = Some p /\ Snap.ask_volume snap = Some q) /\
  (Snap.top_bids snap = [] <-> Snap.best_bid snap = None) /\
  (Snap.top_asks snap = [] <-> Snap.best_ask snap = None) /\
  (length (Snap.top_bids snap) <= 5)%nat /\
  (length (Snap.top_asks snap) <= 5)%nat /\
  Snap.data_points snap <= Z.of_nat (length msgs) /\
  (length (Snap.recent_trades snap) <= length msgs)%nat.
Proof.
  intros Hinit snap.
  destruct (process_messages_run msgs s0) as (ops & Hrun & Hall & Hlen).
  pose proof (run_book_of_last_call _ _ _ ops Hinit
                (from_message_ingestion _ Hall)) as Hbook.
  pose proof (run_scalars _ _ _ ops Hinit) as (_ & _ & Hbv & Hav).
  pose proof (run_windows _ _ _ ops Hinit) as (Hmid & _ & _ & _ & Htr).
  apply init_returns in Hinit as (Hm & Ht & _).
  assert (Hcalls : forall l : list op,
             (length (calls_since_clear l) <= length l)%nat /\
             (length (trades_since_clear l) <= length l)%nat).
  { induction l as [|o l [IH1 IH2]] using rev_ind; [split; reflexivity|].
    rewrite calls_since_clear_snoc, trades_since_clear_snoc, !length_app.
    destruct o; simpl; rewrite ?length_app; simpl; split; lia. }
  destruct (Hcalls ops) as [Hc1 Hc2].
  unfold snap, snapshot, Deque.len, Deque.reversed.
  cbn [Snap.top_bids Snap.top_asks Snap.best_bid Snap.best_ask
       Snap.bid_volume Snap.ask_volume Snap.data_points Snap.recent_trades].
  rewrite Hrun, Hmid, Htr. cbn [Deque.items].
  rewrite length_rev, length_map.
  assert (Hpts : Z.of_nat
                   (length (last_n max_metrics (calls_since_clear ops))) <=
                 Z.of_nat (length msgs))
    by (rewrite last_n_length by assumption; lia).
  assert (Htrs : (length (last_n max_trades (trades_since_clear ops)) <=
                  length msgs)%nat).
  { pose proof (last_n_length max_trades (trades_since_clear ops) Ht). lia. }
  unfold book_of_last_call in Hbook.
  destruct (final (calls_since_clear ops)) as [u|] eqn:Hlast.
  - destruct Hbook as (Hbb & Hba & Htb & Hta).
    assert (Hin : In (Update u) ops).
    { apply calls_since_clear_In. unfold final in Hlast.
      eapply nth_error_In; eassumption. }
    rewrite Forall_forall in Hall.
    destruct (Hall _ Hin) as (data & now & E).
    destruct (depth_metrics_inv _ _ _ E)
      as (bids0 & asks0 & bb & bq & sb & ba & aq & sa
          & _ & _ & Hsb & Hsa & ->).
    cbn [Call.top_bids Call.top_asks Call.best_bid Call.best_ask
         Call.bid_volume Call.ask_volume option_map] in *.
    injection Htb as Htb. injection Hta as Hta.
    rewrite Hbb, Hba, Hbv, Hav, <- Htb, <- Hta, Hsb, Hsa.
    change (firstn TOP_N ((bb, bq) :: sb)) with ((bb, bq) :: firstn 4 sb).
    change (firstn TOP_N ((ba, aq) :: sa)) with ((ba, aq) :: firstn 4 sa).
    split; [intros p q rest H; injection H as <- <- _; split; reflexivity|].
    split; [intros p q rest H; injection H as <- <- _; split; reflexivity|].
    split; [split; intros; discriminate|].
    split; [split; intros; discriminate|].
    split; [exact (le_n_S _ _ (firstn_le_length 4 sb))|].
    split; [exact (le_n_S _ _ (firstn_le_length 4 sa))|].
    split; assumption.
  - destruct Hbook as (Hbb & Hba & Htb & Hta).
    rewrite Hbb, Hba, Htb, Hta.
    repeat split; try (intros; discriminate); try assumption; simpl; lia.
Qed.

Lemma messages_leave_one_book_witness :
  init 1000 100 = Returns (empty_store 1000 100) /\
  Snap.best_bid
    (snapshot
       (process_messages (empty_store 1000 100)
          [(NotJson, 1);
           (Envelope (Some "btcusdt@trade"%string) (Some sample_trade_data), 2);
           (Envelope (Some "btcusdt@depth@100ms"%string)
              (Some (mkStreamData sample_depth None None None None)), 3)]%Q)) =
  Some 50000%Q.
Proof.
  assert (Hinit : init 1000 100 = Returns (empty_store 1000 100))
    by reflexivity.
  split; [exact Hinit|].
  destruct (messages_leave_one_book 1000 100 _
              [(NotJson, 1);
               (Envelope (Some "btcusdt@trade"%string)
                  (Some sample_trade_data), 2);
               (Envelope (Some "btcusdt@depth@100ms"%string)
                  (Some (mkStreamData sample_depth None None None None)), 3)]%Q
              Hinit) as (Hb & _).
  exact (proj1 (Hb 50000%Q 10%Q
                  [(49999, 8); (49998, 6); (49997, 4); (49996, 2)]%Q eq_refl)).
Defined.
